(** * Markdown-to-PDF pipeline of [streamlit_app.py]

    A shallow embedding of the conversion function [markdown_to_pdf_bytes]
    and of the conversion branch of the Streamlit script.  Python [str]
    values are sequences of Unicode code points, [bytes] values are lists of
    bytes, the in-memory buffer [io.BytesIO] is a record, and the effects of
    the program (library calls, logging, Streamlit widgets, exceptions) are
    threaded through a small state-and-exception monad.

    The two libraries the program calls, [markdown] and [xhtml2pdf], are not
    part of the program: they are Section variables, so every theorem holds
    for whatever these libraries compute. *)

From Stdlib Require Import List String Ascii NArith ZArith Lia Bool.
From Stdlib.Strings Require Import Byte.
From Stdlib Require Import DecimalString.
Import ListNotations.

(** ** Python [str] and [bytes] *)

Module Py.

Local Open Scope N_scope.

(** A code point is a number below [0x110000]. *)
Definition codepoint := N.
Definition str := list codepoint.
Definition bytes := list byte.

(** An ASCII literal of the source, as a [str]. *)
Definition s2u (s : string) : str := map N_of_ascii (list_ascii_of_string s).
Arguments s2u s%_string.

Definition ch (a : ascii) : codepoint := N_of_ascii a.
Arguments ch a%_char.

Fixpoint str_eqb (a b : str) : bool :=
  match a, b with
  | [], [] => true
  | x :: a', y :: b' => N.eqb x y && str_eqb a' b'
  | _, _ => false
  end.

(** [int.__str__]. *)
Definition str_of_Z (z : Z) : str := s2u (NilZero.string_of_int (Z.to_int z)).
Definition str_of_nat (n : nat) : str := str_of_Z (Z.of_nat n).

(** [str.isspace] on one character: the code points CPython lists in
    [_PyUnicode_IsWhitespace]. *)
Definition isspace (c : codepoint) : bool :=
  ((0x09 <=? c) && (c <=? 0x0D)) || ((0x1C <=? c) && (c <=? 0x20))
  || (c =? 0x85) || (c =? 0xA0) || (c =? 0x1680)
  || ((0x2000 <=? c) && (c <=? 0x200A))
  || (c =? 0x2028) || (c =? 0x2029) || (c =? 0x202F) || (c =? 0x205F)
  || (c =? 0x3000).

Fixpoint lstrip (s : str) : str :=
  match s with
  | [] => []
  | c :: rest => if isspace c then lstrip rest else s
  end.

Definition rstrip (s : str) : str := rev (lstrip (rev s)).

(** [str.strip()] with no argument. *)
Definition strip (s : str) : str := rstrip (lstrip s).

(** Truth value of a [str], a [bytes] and an [int]. *)
Definition str_truthy (s : str) : bool := match s with [] => false | _ => true end.
Definition bytes_truthy (b : bytes) : bool := match b with [] => false | _ => true end.
Definition int_truthy (z : Z) : bool := negb (Z.eqb z 0).

(** *** Exceptions

    [except Exception] matches the instances of [Exception]; the
    system-exiting classes ([KeyboardInterrupt], [SystemExit],
    [GeneratorExit]) derive from [BaseException] only.  The method
    [__str__] of an exception is code of its class: it returns a text or
    raises an exception of its own. *)
#[local] Unset Elimination Schemes.
Inductive exc : Type := mk_exc {
  exc_type : str;              (* class name *)
  derives_Exception : bool;    (* isinstance(e, Exception) *)
  exc_str : str;               (* what str(e) returns, when it returns *)
  str_raises : option exc      (* what str(e) raises, when it raises *)
}.
#[local] Set Elimination Schemes.

(** [str(e)], as a replacement field [{e}] evaluates it. *)
Definition py_str (e : exc) : exc + str :=
  match str_raises e with
  | Some e' => inl e'
  | None => inr (exc_str e)
  end.

(** *** [str.encode('utf-8')] *)

Definition is_surrogate (c : codepoint) : bool := (0xD800 <=? c) && (c <=? 0xDFFF).

Definition byte_of_N (n : N) : byte :=
  match Byte.of_N n with Some b => b | None => x00 end.

Definition utf8_char (c : codepoint) : bytes :=
  if c <? 0x80 then [byte_of_N c]
  else if c <? 0x800 then
    [byte_of_N (N.lor 0xC0 (N.shiftr c 6));
     byte_of_N (N.lor 0x80 (N.land c 0x3F))]
  else if c <? 0x10000 then
    [byte_of_N (N.lor 0xE0 (N.shiftr c 12));
     byte_of_N (N.lor 0x80 (N.land (N.shiftr c 6) 0x3F));
     byte_of_N (N.lor 0x80 (N.land c 0x3F))]
  else
    [byte_of_N (N.lor 0xF0 (N.shiftr c 18));
     byte_of_N (N.lor 0x80 (N.land (N.shiftr c 12) 0x3F));
     byte_of_N (N.lor 0x80 (N.land (N.shiftr c 6) 0x3F));
     byte_of_N (N.lor 0x80 (N.land c 0x3F))].

(** Position of the first lone surrogate and the length of the run of
    surrogates that starts there. *)
Fixpoint surrogate_run (s : str) : nat :=
  match s with
  | c :: rest => if is_surrogate c then S (surrogate_run rest) else 0%nat
  | [] => 0%nat
  end.

Fixpoint first_surrogate (i : nat) (s : str) : option (nat * codepoint * nat) :=
  match s with
  | [] => None
  | c :: rest =>
      if is_surrogate c then Some (i, c, surrogate_run s)
      else first_surrogate (S i) rest
  end.

Definition hex_digit (n : N) : codepoint :=
  if n <? 10 then 48 + n else 87 + n.

Definition hex4 (c : codepoint) : str :=
  [hex_digit (N.land (N.shiftr c 12) 0xF); hex_digit (N.land (N.shiftr c 8) 0xF);
   hex_digit (N.land (N.shiftr c 4) 0xF); hex_digit (N.land c 0xF)].

Definition UnicodeEncodeError (start : nat) (c : codepoint) (run : nat) : exc :=
  {| exc_type := s2u "UnicodeEncodeError";
     derives_Exception := true;
     exc_str :=
       if Nat.eqb run 1%nat then
         s2u "'utf-8' codec can't encode character '\u" ++ hex4 c
         ++ s2u "' in position " ++ str_of_nat start
         ++ s2u ": surrogates not allowed"
       else
         s2u "'utf-8' codec can't encode characters in position "
         ++ str_of_nat start ++ s2u "-" ++ str_of_nat (start + run - 1)%nat
         ++ s2u ": surrogates not allowed";
     str_raises := None |}.

(** The strict encoder: a lone surrogate raises [UnicodeEncodeError]. *)
Definition encode_utf8 (s : str) : exc + bytes :=
  match first_surrogate 0%nat s with
  | Some (i, c, run) => inl (UnicodeEncodeError i c run)
  | None => inr (flat_map utf8_char s)
  end.

(** *** Formatted string literals

    The text of an f-string literal is cut into literal parts and
    replacement fields: [{{] and [}}] stand for one brace, [{name}] is
    replaced by the value of the variable. *)
Inductive fpart : Type :=
| Lit (text : str)
| Field (name : str).

Inductive fmode : Type :=
| InText (acc : str)          (* literal text read so far, reversed *)
| AfterOpen (acc : str)       (* one open brace read *)
| AfterClose (acc : str)      (* one close brace read *)
| InField (name : str).       (* inside a replacement field, reversed *)

Definition flush (acc : str) (k : list fpart) : list fpart :=
  match acc with
  | [] => k
  | _ => Lit (rev acc) :: k
  end.

Fixpoint fstring_parts (m : fmode) (src : str) : option (list fpart) :=
  match src with
  | [] =>
      match m with
      | InText acc => Some (flush acc [])
      | _ => None
      end
  | c :: rest =>
      match m with
      | InText acc =>
          if c =? ch "{" then fstring_parts (AfterOpen acc) rest
          else if c =? ch "}" then fstring_parts (AfterClose acc) rest
          else fstring_parts (InText (c :: acc)) rest
      | AfterOpen acc =>
          if c =? ch "{" then fstring_parts (InText (c :: acc)) rest
          else if c =? ch "}" then None
          else option_map (flush acc) (fstring_parts (InField [c]) rest)
      | AfterClose acc =>
          if c =? ch "}" then fstring_parts (InText (c :: acc)) rest
          else None
      | InField name =>
          if c =? ch "}" then
            option_map (cons (Field (rev name))) (fstring_parts (InText []) rest)
          else fstring_parts (InField (c :: name)) rest
      end
  end.

Fixpoint fstring_render (env : str -> str) (parts : list fpart) : str :=
  match parts with
  | [] => []
  | Lit t :: rest => t ++ fstring_render env rest
  | Field x :: rest => env x ++ fstring_render env rest
  end.

(** Value of the f-string with source text [src] where the variables have
    the values [env]; a malformed literal has no value. *)
Definition fstring (src : str) (env : str -> str) : option str :=
  option_map (fstring_render env) (fstring_parts (InText []) src).

(** *** [io.BytesIO] *)
Record BytesIO : Type := mk_BytesIO {
  buf : bytes;
  pos : nat
}.

Definition BytesIO_new : BytesIO := {| buf := []; pos := 0%nat |}.

Definition seek (b : BytesIO) (offset : nat) : BytesIO :=
  {| buf := buf b; pos := offset |}.

(** [getvalue] returns the whole contents, whatever the position. *)
Definition getvalue (b : BytesIO) : bytes := buf b.

(** [write] at the current position: zero-fills a gap, overwrites, extends;
    a write of no byte changes nothing. *)
Definition write (b : BytesIO) (data : bytes) : BytesIO :=
  match data with
  | [] => b
  | _ :: _ =>
      let before :=
        firstn (pos b) (buf b)
        ++ repeat x00 (pos b - List.length (buf b))%nat in
      {| buf := before ++ data ++ skipn (pos b + List.length data)%nat (buf b);
         pos := (pos b + List.length data)%nat |}
  end.

End Py.

(** ** The style injector *)

Module Template.
Import Py.

Local Open Scope string_scope.

Definition dquote : string := String (ascii_of_nat 34) EmptyString.

(** The text of the f-string literal assigned to [html_template], between
    its triple quotes, as it stands in the source (braces still doubled). *)
Definition html_template_literal : string :=
"
        <!DOCTYPE html>
        <html>
        <head>
            <meta charset=" ++ dquote ++ "UTF-8" ++ dquote ++ ">
            <style>
                /* --- Global Compact Settings --- */
                body {{
                    font-family: Arial, Helvetica, sans-serif;
                    line-height: 1.2; /* Reduced line height */
                    font-size: 9pt;   /* Reduced base font size */
                    margin: 0.2in;    /* Explicit page margins (adjust if needed) */
                }}
                p {{
                    margin-top: 0;      /* Remove top margin */
                    margin-bottom: 0.08em; /* Very small bottom margin */
                    padding: 0;
                }}
                ul, ol {{
                    padding-left: 18px; /* Slightly reduce indent */
                    margin-top: 0.05em; /* Very small top margin */
                    margin-bottom: 0.1em; /* Reduced bottom margin */
                    padding-top: 0;
                    padding-bottom: 0;
                }}
                li {{
                    margin-top: 0;
                    margin-bottom: 0; /* No space between list items */
                    padding-top: 0;
                    padding-bottom: 0;
                }}

                /* --- Compact Heading Styles --- */
                h1 {{
                    margin-top: 0;
                    margin-bottom: 0.1em; /* Minimal space after H1 */
                    padding-bottom: 0;
                    text-align: center;
                    font-size: 1.6em; /* Slightly Reduced */
                    line-height: 1.2;
                }}

                h2 {{
                    font-size: 1.15em; /* Reduced */
                    margin-top: 0.6em;  /* Significantly Reduced space above section */
                    margin-bottom: 0.1em;/* Reduced space below heading text */
                    padding-bottom: 0.05em;/* Reduced space between text and line */
                    border-bottom: 0.5px solid #ccc; /* Thinner border */
                    line-height: 1.2;
                }}

                h3, h4, h5, h6 {{
                    font-size: 1.0em; /* Reduced */
                    margin-top: 0.4em; /* Reduced */
                    margin-bottom: 0.05em; /* Very small */
                    line-height: 1.2;
                    padding: 0;
                    font-weight: bold;
                }}
                /* --- END Compact Heading Styles --- */

                /* --- Other Element Styles (mostly unchanged unless vertical space is affected) --- */
                code {{
                    background-color: #f0f0f0; padding: 1px 3px; /* Slightly smaller padding */
                    border-radius: 3px; font-family: monospace; font-size: 0.9em;
                }}
                pre {{
                    background-color: #f0f0f0; padding: 5px; /* Reduced padding */
                    border-radius: 4px; overflow-x: auto; font-family: monospace;
                    font-size: 0.85em; /* Slightly smaller code block font */
                    white-space: pre-wrap; word-wrap: break-word;
                    margin-top: 0.3em; margin-bottom: 0.3em; /* Reduced margins */
                }}
                blockquote {{
                    border-left: 2px solid #ccc; /* Thinner border */
                    padding-left: 10px; /* Reduced padding */
                    margin-left: 0; margin-top: 0.3em; margin-bottom: 0.3em; /* Reduced margins */
                    color: #555; font-size: 0.95em;
                }}
                table {{
                    border-collapse: collapse; width: 100%; margin-bottom: 0.5em; /* Reduced margin */
                    border: 1px solid #ddd;
                }}
                th, td {{
                    border: 1px solid #ddd; padding: 4px; /* Reduced padding */
                    text-align: left; font-size: 0.9em; /* Slightly smaller table text */
                }}
                th {{ background-color: #f2f2f2; font-weight: bold; }}
                img {{ max-width: 100%; height: auto; display: block; margin-top: 0.5em; margin-bottom: 0.5em; }} /* Reduced margins */
                a {{ color: #0066cc; text-decoration: none; }}
                a:hover {{ text-decoration: underline; }}

                /* Explicit Page Margins (Optional but can help) */
                @page {{
                    margin: 0.2in; /* Adjust overall page margins */
                }}

            </style>
        </head>
        <body>
            {html_content}
        </body>
        </html>
        ".

End Template.

(** ** Effects of the program *)

Module Effects.
Import Py.

Inductive level : Type := INFO | ERROR.

(** What the program does to the outside, in the order it does it. *)
Inductive event : Type :=
| CallMarkdown (text : str) (extensions : list str)
| CallCreatePDF (src : bytes) (dest : BytesIO) (encoding : str)
| Log (lvl : level) (msg : str) (exc_info : bool)
| StWarning (body : str)
| StSpinner (text : str)
| StSuccess (body : str)
| StError (body : str)
| StDownloadButton (label : str) (data : bytes) (file_name mime : str).

(** The state of the process: what the libraries can read and change (the
    clock, their registries and caches), and the events so far. *)
Record process (W : Type) : Type := mk_process {
  world : W;
  events : list event
}.
Arguments mk_process {W} world events.
Arguments world {W} p.
Arguments events {W} p.

Inductive outcome (A : Type) : Type :=
| Return (a : A)
| Raise (e : exc).
Arguments Return {A} a.
Arguments Raise {A} e.

Definition M (W A : Type) : Type := process W -> outcome A * process W.

Definition ret {W A} (a : A) : M W A := fun p => (Return a, p).

Definition bind {W A B} (c : M W A) (k : A -> M W B) : M W B :=
  fun p =>
    match c p with
    | (Return a, p') => k a p'
    | (Raise e, p') => (Raise e, p')
    end.

Definition emit {W} (ev : event) : M W unit :=
  fun p => (Return tt, {| world := world p; events := events p ++ [ev] |}).

Definition raise {W A} (e : exc) : M W A := fun p => (Raise e, p).

(** A pure operation of the language that may raise. *)
Definition lift {W A} (r : exc + A) : M W A :=
  match r with
  | inl e => raise e
  | inr a => ret a
  end.

(** A library call: it reads and changes the world, and returns or raises. *)
Definition interact {W A} (f : W -> (exc + A) * W) : M W A :=
  fun p =>
    let (r, w') := f (world p) in
    (match r with inl e => Raise e | inr a => Return a end,
     {| world := w'; events := events p |}).

(** [try: body  except Exception as e: handler]. *)
Definition try_except_Exception {W A} (body : M W A) (handler : exc -> M W A)
  : M W A :=
  fun p =>
    match body p with
    | (Return a, p') => (Return a, p')
    | (Raise e, p') =>
        if derives_Exception e then handler e p' else (Raise e, p')
    end.

Declare Scope py_scope.
Delimit Scope py_scope with py.
Notation "x <- c ;; k" := (bind c (fun x => k))
  (at level 61, c at next level, right associativity) : py_scope.
Notation "c ;; k" := (bind c (fun _ => k))
  (at level 61, right associativity) : py_scope.

Definition logging_info {W} (msg : str) : M W unit := emit (Log INFO msg false).
Definition logging_error {W} (msg : str) (exc_info : bool) : M W unit :=
  emit (Log ERROR msg exc_info).

End Effects.

(** ** The program *)

Module App.
Import Py Template Effects.

Local Open Scope py_scope.

(** The status object [pisa.CreatePDF] returns; the program reads [err]. *)
Record pisaContext : Type := mk_pisaContext {
  err : Z
}.

(** Value of an f-string of the program.  A malformed literal is a
    [SyntaxError] before anything runs; the literals of the program are
    well formed (lemma [literals_well_formed]). *)
Definition format (literal : string) (env : str -> str) : str :=
  match fstring (s2u literal) env with
  | Some s => s
  | None => []
  end.

(** One variable in scope. *)
Definition var (name : string) (value : str) : str -> str :=
  fun x => if str_eqb x (s2u name) then value else [].

(** The style injector: the f-string assigned to [html_template]. *)
Definition html_template (html_content : str) : str :=
  format html_template_literal (var "html_content" html_content).

Section Pipeline.

(** What the libraries and the clock depend on besides their arguments. *)
Variable W : Type.

(** [markdown.markdown(text, extensions=...)]: the markup, or the exception
    it raises. *)
Variable markdown_markdown : W -> str -> list str -> (exc + str) * W.

(** [pisa.CreatePDF(src, dest=..., encoding=...)]: the status object or the
    exception it raises, and what it has made of the destination buffer. *)
Variable pisa_CreatePDF :
  W -> bytes -> BytesIO -> str -> (exc + pisaContext) * BytesIO * W.

(** [datetime.now().strftime(fmt)]. *)
Variable datetime_now_strftime : W -> str -> str.

Definition extensions : list str :=
  [s2u "extra"; s2u "smarty"; s2u "fenced_code"].

Definition call_markdown (text : str) (exts : list str) : M W str :=
  emit (CallMarkdown text exts) ;;
  interact (fun w => markdown_markdown w text exts).

Definition call_CreatePDF (src : bytes) (dest : BytesIO) (encoding : str)
  : M W (pisaContext * BytesIO) :=
  emit (CallCreatePDF src dest encoding) ;;
  interact (fun w =>
    match pisa_CreatePDF w src dest encoding with
    | (inl e, _, w') => (inl e, w')
    | (inr status, dest', w') => (inr (status, dest'), w')
    end).

(** The body of the [try] block.  The buffer is local to the call: after an
    exception nothing reads it, so it is passed by value. *)
Definition try_block (markdown_string : str) (pdf_buffer : BytesIO)
  : M W (option bytes) :=
  html_content <- call_markdown markdown_string extensions ;;
  src <- lift (encode_utf8 (html_template html_content)) ;;
  r <- call_CreatePDF src pdf_buffer (s2u "utf-8") ;;
  let pisa_status := fst r in
  let pdf_buffer := snd r in
  if int_truthy (err pisa_status) then
    logging_error
      (format "xhtml2pdf Error converting to PDF: {pisa_status.err}"
         (var "pisa_status.err" (str_of_Z (err pisa_status))))
      false ;;
    ret None
  else
    logging_info (s2u "PDF conversion successful (compact styling).") ;;
    let pdf_buffer := seek pdf_buffer 0 in
    ret (Some (getvalue pdf_buffer)).

Definition markdown_to_pdf_bytes (markdown_string : str) : M W (option bytes) :=
  let pdf_buffer := BytesIO_new in
  try_except_Exception
    (try_block markdown_string pdf_buffer)
    (fun e =>
       text <- lift (py_str e) ;;
       logging_error
         (format "An unexpected error occurred during PDF conversion: {e}"
            (var "e" text))
         true ;;
       ret None).

(** Truth value of the result, [if pdf_bytes:]. *)
Definition result_truthy (r : option bytes) : bool :=
  match r with
  | Some b => bytes_truthy b
  | None => false
  end.

(** The branch of the script under [if convert_button:]. *)
Definition conversion_logic (convert_button : bool) (markdown_input : str)
  : M W unit :=
  if convert_button then
    if negb (str_truthy (strip markdown_input)) then
      emit (StWarning
              ([0x26A0; 0xFE0F]%N
               ++ s2u " Please enter some Markdown text in the input area first."))
    else
      emit (StSpinner
              ([0x2699; 0xFE0F]%N
               ++ s2u " Converting Markdown to PDF (compact style)... Please wait.")) ;;
      pdf_bytes <- markdown_to_pdf_bytes markdown_input ;;
      if result_truthy pdf_bytes then
        emit (StSuccess ([0x2705]%N ++ s2u " Conversion Successful!")) ;;
        timestamp <-
          interact (fun w => (inr (datetime_now_strftime w (s2u "%Y%m%d_%H%M%S")), w)) ;;
        let output_filename :=
          format "converted_markdown_{timestamp}.pdf" (var "timestamp" timestamp) in
        emit (StDownloadButton
                ([0x2B07; 0xFE0F]%N ++ s2u " Download PDF")
                (match pdf_bytes with Some b => b | None => [] end)
                output_filename
                (s2u "application/pdf"))
      else
        emit (StError
                ([0x274C]%N
                 ++ s2u " PDF Conversion Failed. Check logs if running locally for more details."))
  else ret tt.

End Pipeline.

Arguments call_markdown {W} markdown_markdown text exts.
Arguments call_CreatePDF {W} pisa_CreatePDF src dest encoding.
Arguments try_block {W} markdown_markdown pisa_CreatePDF markdown_string pdf_buffer.
Arguments markdown_to_pdf_bytes {W} markdown_markdown pisa_CreatePDF markdown_string.
Arguments conversion_logic {W} markdown_markdown pisa_CreatePDF
  datetime_now_strftime convert_button markdown_input.

End App.

(** ** Reading a styled document

    The layout rules a document declares are read off its text: the
    stylesheet is what stands between the first [<style>] and the next
    [</style>]; a rule is a selector list and a block of declarations; of
    two declarations of one property for one selector the later one counts. *)

Module Css.
Import Py.

Local Open Scope N_scope.

Fixpoint starts_with (pat s : str) : bool :=
  match pat, s with
  | [], _ => true
  | a :: pat', b :: s' => (a =? b) && starts_with pat' s'
  | _ :: _, [] => false
  end.

(** [pat in s]. *)
Fixpoint contains (pat s : str) : bool :=
  starts_with pat s ||
  match s with
  | [] => false
  | _ :: s' => contains pat s'
  end.

(** What follows the first occurrence of [pat] in [s]. *)
Fixpoint after (pat s : str) : option str :=
  if starts_with pat s then Some (skipn (List.length pat) s)
  else match s with
       | [] => None
       | _ :: s' => after pat s'
       end.

(** What precedes the first occurrence of [pat] in [s]. *)
Fixpoint before (pat s : str) : option str :=
  if starts_with pat s then Some []
  else match s with
       | [] => None
       | c :: s' => option_map (cons c) (before pat s')
       end.

Definition style_block (doc : str) : option str :=
  match after (s2u "<style>") doc with
  | Some rest => before (s2u "</style>") rest
  | None => None
  end.

Fixpoint strip_comments (inside : bool) (s : str) : str :=
  match s with
  | [] => []
  | c :: rest =>
      match rest with
      | [] => if inside then [] else [c]
      | d :: rest' =>
          if inside then
            if (c =? ch "*") && (d =? ch "/") then strip_comments false rest'
            else strip_comments true rest
          else
            if (c =? ch "/") && (d =? ch "*") then strip_comments true rest'
            else c :: strip_comments false rest
      end
  end.

Fixpoint split_on (sep : codepoint) (s : str) : list str :=
  match s with
  | [] => [[]]
  | c :: rest =>
      if c =? sep then [] :: split_on sep rest
      else match split_on sep rest with
           | [] => [[c]]
           | h :: t => (c :: h) :: t
           end
  end.

(** The two sides of the first [sep] in [s]. *)
Fixpoint cut_at (sep : codepoint) (s : str) : option (str * str) :=
  match s with
  | [] => None
  | c :: rest =>
      if c =? sep then Some ([], rest)
      else option_map (fun lr => (c :: fst lr, snd lr)) (cut_at sep rest)
  end.

Record rule : Type := mk_rule {
  selectors : list str;
  declarations : list (str * str)
}.

Definition parse_declaration (d : str) : list (str * str) :=
  match cut_at (ch ":") d with
  | Some (property, value) => [(strip property, strip value)]
  | None => []
  end.

Definition parse_rule (chunk : str) : list rule :=
  match cut_at (ch "{") chunk with
  | Some (sel, body) =>
      [{| selectors := map strip (split_on (ch ",") sel);
          declarations := flat_map parse_declaration (split_on (ch ";") body) |}]
  | None => []
  end.

Definition css_rules (sheet : str) : list rule :=
  flat_map parse_rule (split_on (ch "}") (strip_comments false sheet)).

Definition declared (rules : list rule) (sel property : str) : list str :=
  flat_map
    (fun r =>
       if existsb (str_eqb sel) (selectors r) then
         map snd (filter (fun d => str_eqb (fst d) property) (declarations r))
       else [])
    rules.

Definition css_value (sheet sel property : str) : option str :=
  match rev (declared (css_rules sheet) sel property) with
  | v :: _ => Some v
  | [] => None
  end.

(** The document [doc] declares [property: value] for the selector [sel]. *)
Definition declares (doc : str) (sel property value : string) : bool :=
  match style_block doc with
  | Some sheet =>
      match css_value sheet (s2u sel) (s2u property) with
      | Some v => str_eqb v (s2u value)
      | None => false
      end
  | None => false
  end.

End Css.

(** ** The constants of the template *)

Module Shell.
Import Py Template App Css.

(** The parts of the literal of [html_template]. *)
Definition html_template_parts : list fpart :=
  Eval vm_compute in
    match fstring_parts (InText []) (s2u html_template_literal) with
    | Some parts => parts
    | None => []
    end.

(** The text before and after the replacement field. *)
Definition template_prefix : str :=
  Eval vm_compute in
    match html_template_parts with
    | Lit t :: _ => t
    | _ => []
    end.

Definition template_suffix : str :=
  Eval vm_compute in
    match html_template_parts with
    | _ :: _ :: Lit t :: _ => t
    | _ => []
    end.

(** The stylesheet of the template. *)
Definition stylesheet : str :=
  Eval vm_compute in
    match style_block template_prefix with
    | Some sheet => sheet
    | None => []
    end.

(** The compact layout: selector, property, value. *)
Definition compact_layout_rules : list (string * string * string) :=
  [ ("@page", "margin", "0.2in");
    ("body", "margin", "0.2in");
    ("body", "font-family", "Arial, Helvetica, sans-serif");
    ("body", "font-size", "9pt");
    ("body", "line-height", "1.2");
    ("p", "margin-top", "0");
    ("p", "margin-bottom", "0.08em");
    ("ul", "padding-left", "18px");
    ("ol", "padding-left", "18px");
    ("li", "margin-top", "0");
    ("li", "margin-bottom", "0");
    ("li", "padding-top", "0");
    ("li", "padding-bottom", "0");
    ("h1", "text-align", "center");
    ("h1", "font-size", "1.6em");
    ("h2", "font-size", "1.15em");
    ("h2", "border-bottom", "0.5px solid #ccc");
    ("h2", "margin-top", "0.6em");
    ("h3", "font-size", "1.0em");
    ("h4", "font-size", "1.0em");
    ("h5", "font-size", "1.0em");
    ("h6", "font-size", "1.0em");
    ("h3", "font-weight", "bold");
    ("h4", "font-weight", "bold");
    ("h5", "font-weight", "bold");
    ("h6", "font-weight", "bold");
    ("h3", "margin-top", "0.4em");
    ("h4", "margin-top", "0.4em");
    ("h5", "margin-top", "0.4em");
    ("h6", "margin-top", "0.4em");
    ("code", "background-color", "#f0f0f0");
    ("code", "font-family", "monospace");
    ("pre", "background-color", "#f0f0f0");
    ("pre", "font-family", "monospace");
    ("table", "border-collapse", "collapse");
    ("table", "width", "100%");
    ("th", "background-color", "#f2f2f2");
    ("img", "max-width", "100%");
    ("a", "color", "#0066cc");
    ("a", "text-decoration", "none");
    ("a:hover", "text-decoration", "underline") ]%string.

Definition declares_rule (doc : str) (r : string * string * string) : bool :=
  declares doc (fst (fst r)) (snd (fst r)) (snd r).

End Shell.

(** ** What the stages do for one input *)

Module Stages.
Import Py Template Effects App.

Section Stages.

Variable W : Type.
Variable markdown_markdown : W -> str -> list str -> (exc + str) * W.
Variable pisa_CreatePDF :
  W -> bytes -> BytesIO -> str -> (exc + pisaContext) * BytesIO * W.

(** The parser returns the markup [html]. *)
Definition parsed (md : str) (w : W) (html : str) (w1 : W) : Prop :=
  markdown_markdown w md extensions = (inr html, w1).

(** The styled document of [html], as the bytes handed to the engine. *)
Definition styled (html : str) (src : bytes) : Prop :=
  encode_utf8 (html_template html) = inr src.

(** The engine, given a fresh buffer, returns [status] and leaves [dest]. *)
Definition rendered (md : str) (w : W)
  (status : pisaContext) (dest : BytesIO) (w2 : W) : Prop :=
  exists html w1 src,
    parsed md w html w1 /\ styled html src /\
    pisa_CreatePDF w1 src BytesIO_new (s2u "utf-8") = (inr status, dest, w2).

(** One of the three stages raises [e]. *)
Inductive stage_raises (md : str) (w : W) (e : exc) : Prop :=
| parsing_raises (w1 : W) :
    markdown_markdown w md extensions = (inl e, w1) ->
    stage_raises md w e
| styling_raises (html : str) (w1 : W) :
    parsed md w html w1 ->
    encode_utf8 (html_template html) = inl e ->
    stage_raises md w e
| rendering_raises (html : str) (w1 : W) (src : bytes) (dest : BytesIO) (w2 : W) :
    parsed md w html w1 ->
    styled html src ->
    pisa_CreatePDF w1 src BytesIO_new (s2u "utf-8") = (inl e, dest, w2) ->
    stage_raises md w e.

(** The conversion fails: a stage raises, or the engine reports errors. *)
Definition conversion_fails (md : str) (w : W) : Prop :=
  (exists e, stage_raises md w e) \/
  (exists status dest w2, rendered md w status dest w2 /\ err status <> 0%Z).

(** The libraries signal their faults with instances of [Exception]. *)
Definition faults_are_Exceptions : Prop :=
  (forall w text exts e w1,
      markdown_markdown w text exts = (inl e, w1) ->
      derives_Exception e = true) /\
  (forall w src dest enc e dest' w1,
      pisa_CreatePDF w src dest enc = (inl e, dest', w1) ->
      derives_Exception e = true).

(** What [except Exception] makes of an exception [e] raised in the [try]
    block when the world is [w] and the events so far are [evs]. *)
Definition handled (e : exc) (w : W) (evs : list event)
  : outcome (option bytes) * process W :=
  if derives_Exception e then
    match str_raises e with
    | Some e' => (Raise e', {| world := w; events := evs |})
    | None =>
        (Return None,
         {| world := w;
            events := evs ++
              [Log ERROR
                 (s2u "An unexpected error occurred during PDF conversion: "
                  ++ exc_str e) true] |})
    end
  else (Raise e, {| world := w; events := evs |}).

(** The parser or the engine raises [e]. *)
Definition library_raises (md : str) (w : W) (e : exc) : Prop :=
  (exists w1, markdown_markdown w md extensions = (inl e, w1)) \/
  (exists html w1 src dest w2,
      parsed md w html w1 /\ styled html src /\
      pisa_CreatePDF w1 src BytesIO_new (s2u "utf-8") = (inl e, dest, w2)).

(** The faults of the libraries can be written to the log: their [__str__]
    returns. *)
Definition faults_can_be_printed : Prop :=
  (forall w text exts e w1,
      markdown_markdown w text exts = (inl e, w1) ->
      str_raises e = None) /\
  (forall w src dest enc e dest' w1,
      pisa_CreatePDF w src dest enc = (inl e, dest', w1) ->
      str_raises e = None).

(** The result and the final state of a call, read off the results of the
    three stages: of the engine, of the encoder, of the parser. *)
Definition render_result (evs2 : list event)
  (r : (exc + pisaContext) * BytesIO * W)
  : outcome (option bytes) * process W :=
  match r with
  | (inl e, _, w2) => handled e w2 evs2
  | (inr status, dest, w2) =>
      if int_truthy (err status) then
        (Return None,
         {| world := w2;
            events := evs2 ++
              [Log ERROR
                 (s2u "xhtml2pdf Error converting to PDF: "
                  ++ str_of_Z (err status)) false] |})
      else
        (Return (Some (buf dest)),
         {| world := w2;
            events := evs2 ++
              [Log INFO
                 (s2u "PDF conversion successful (compact styling).")
                 false] |})
  end.

Definition style_result (evs1 : list event) (w1 : W) (r : exc + bytes)
  : outcome (option bytes) * process W :=
  match r with
  | inl e => handled e w1 evs1
  | inr src =>
      render_result
        (evs1 ++ [CallCreatePDF src BytesIO_new (s2u "utf-8")])
        (pisa_CreatePDF w1 src BytesIO_new (s2u "utf-8"))
  end.

Definition parse_result (evs1 : list event) (r : (exc + str) * W)
  : outcome (option bytes) * process W :=
  match r with
  | (inl e, w1) => handled e w1 evs1
  | (inr html, w1) => style_result evs1 w1 (encode_utf8 (html_template html))
  end.

Definition run_result (md : str) (p : process W)
  : outcome (option bytes) * process W :=
  parse_result
    (events p ++ [CallMarkdown md extensions])
    (markdown_markdown (world p) md extensions).

End Stages.

Arguments parsed {W} markdown_markdown md w html w1.
Arguments rendered {W} markdown_markdown pisa_CreatePDF md w status dest w2.
Arguments stage_raises {W} markdown_markdown pisa_CreatePDF md w e.
Arguments conversion_fails {W} markdown_markdown pisa_CreatePDF md w.
Arguments faults_are_Exceptions {W} markdown_markdown pisa_CreatePDF.
Arguments handled {W} e w evs.
Arguments library_raises {W} markdown_markdown pisa_CreatePDF md w e.
Arguments faults_can_be_printed {W} markdown_markdown pisa_CreatePDF.
Arguments render_result {W} evs2 r.
Arguments style_result {W} pisa_CreatePDF evs1 w1 r.
Arguments parse_result {W} pisa_CreatePDF evs1 r.
Arguments run_result {W} markdown_markdown pisa_CreatePDF md p.

(** Events of one kind in a history. *)
Definition is_engine_call (ev : event) : bool :=
  match ev with
  | CallCreatePDF _ _ _ => true
  | _ => false
  end.

Definition is_parser_call (ev : event) : bool :=
  match ev with
  | CallMarkdown _ _ => true
  | _ => false
  end.

Definition engine_calls (evs : list event) : list event := filter is_engine_call evs.
Definition parser_calls (evs : list event) : list event := filter is_parser_call evs.

Definition whitespace_only (s : str) : bool := forallb isspace s.

End Stages.

(** ** A small instance of the libraries

    A parser that wraps the text in a paragraph and rejects a NUL character,
    an engine that writes a header and the source and counts an error for a
    document that is too short, and a clock that is a counter. *)

Module Instance.
Import Py Template Effects App Css.

Definition ValueError : exc :=
  {| exc_type := s2u "ValueError";
     derives_Exception := true;
     exc_str := s2u "embedded null character";
     str_raises := None |}.

Definition markdown_markdown (w : nat) (text : str) (exts : list str)
  : (exc + str) * nat :=
  if existsb (N.eqb 0) text then (inl ValueError, w)
  else (inr (s2u "<p>" ++ text ++ s2u "</p>"), w).

Definition header : bytes := ["%"; "P"; "D"; "F"; "-"]%byte.

Definition pisa_CreatePDF (w : nat) (src : bytes) (dest : BytesIO) (enc : str)
  : (exc + pisaContext) * BytesIO * nat :=
  if Nat.leb (List.length src) 4600
  then (inr {| err := 1 |}, write dest header, S w)
  else (inr {| err := 0 |}, write dest (header ++ src), S w).

Definition datetime_now_strftime (w : nat) (fmt : str) : str := str_of_nat w.

Definition start : process nat := {| world := 0; events := [] |}.

End Instance.

(** ** Looking at a history *)

Module Observe.
Import Py Effects.

Definition is_log (ev : event) : bool :=
  match ev with
  | Log _ _ _ => true
  | _ => false
  end.

Definition is_message (ev : event) : bool :=
  match ev with
  | StWarning _ | StSuccess _ | StError _ => true
  | _ => false
  end.

Definition is_download (ev : event) : bool :=
  match ev with
  | StDownloadButton _ _ _ _ => true
  | _ => false
  end.

(** The log records, and everything else, of a list of events. *)
Definition logs (evs : list event) : list event := filter is_log evs.
Definition actions (evs : list event) : list event :=
  filter (fun ev => negb (is_log ev)) evs.
Definition messages (evs : list event) : list event := filter is_message evs.
Definition downloads (evs : list event) : list event := filter is_download evs.

(** The texts of the script. *)
Definition warning_text : str :=
  [0x26A0; 0xFE0F]%N
  ++ s2u " Please enter some Markdown text in the input area first.".

Definition spinner_text : str :=
  [0x2699; 0xFE0F]%N
  ++ s2u " Converting Markdown to PDF (compact style)... Please wait.".

Definition success_text : str := [0x2705]%N ++ s2u " Conversion Successful!".

Definition download_label : str := [0x2B07; 0xFE0F]%N ++ s2u " Download PDF".

Definition error_text : str :=
  [0x274C]%N
  ++ s2u " PDF Conversion Failed. Check logs if running locally for more details.".

(** The state of the process once the spinner is shown. *)
Definition in_spinner {W : Type} (p : process W) : process W :=
  {| world := world p; events := events p ++ [StSpinner spinner_text] |}.

Definition has_surrogate (s : str) : bool := existsb is_surrogate s.

End Observe.

(** ** What the script shows for a result *)

Module Display.
Import Py Effects App Observe.

(** The script after the call has come back with [r]: the success message
    and the download button, or the error message; an exception goes on. *)
Definition shown {W : Type} (datetime_now_strftime : W -> str -> str)
  (r : outcome (option bytes) * process W) : outcome unit * process W :=
  match r with
  | (Raise e, p1) => (Raise e, p1)
  | (Return pdf_bytes, p1) =>
      if result_truthy pdf_bytes then
        (Return tt,
         {| world := world p1;
            events := events p1 ++
              [StSuccess success_text;
               StDownloadButton download_label
                 (match pdf_bytes with Some b => b | None => [] end)
                 (s2u "converted_markdown_"
                  ++ datetime_now_strftime (world p1) (s2u "%Y%m%d_%H%M%S")
                  ++ s2u ".pdf")
                 (s2u "application/pdf")] |})
      else
        (Return tt,
         {| world := world p1; events := events p1 ++ [StError error_text] |})
  end.

End Display.

(** ** Decoding UTF-8

    The strict decoder, the inverse of [str.encode('utf-8')]: the call names
    this encoding to the engine for the bytes it hands over. *)

Module Utf8.
Import Py.

Local Open Scope N_scope.

(** What a [str] holds: a code point of Unicode. *)
Definition in_range (c : codepoint) : bool := c <? 0x110000.

(** The six payload bits of a continuation byte. *)
Definition continuation (b : byte) : option N :=
  let n := Byte.to_N b in
  if (0x80 <=? n) && (n <? 0xC0) then Some (n - 0x80) else None.

Fixpoint decode_utf8 (bs : bytes) : option str :=
  match bs with
  | [] => Some []
  | b0 :: r0 =>
      let n0 := Byte.to_N b0 in
      if n0 <? 0x80 then option_map (cons n0) (decode_utf8 r0)
      else if n0 <? 0xC0 then None
      else if n0 <? 0xE0 then
        match r0 with
        | b1 :: r1 =>
            match continuation b1 with
            | Some x1 =>
                let c := (n0 - 0xC0) * 64 + x1 in
                if 0x80 <=? c then option_map (cons c) (decode_utf8 r1)
                else None
            | None => None
            end
        | _ => None
        end
      else if n0 <? 0xF0 then
        match r0 with
        | b1 :: b2 :: r2 =>
            match continuation b1, continuation b2 with
            | Some x1, Some x2 =>
                let c := ((n0 - 0xE0) * 64 + x1) * 64 + x2 in
                if (0x800 <=? c) && negb (is_surrogate c)
                then option_map (cons c) (decode_utf8 r2)
                else None
            | _, _ => None
            end
        | _ => None
        end
      else if n0 <? 0xF8 then
        match r0 with
        | b1 :: b2 :: b3 :: r3 =>
            match continuation b1, continuation b2, continuation b3 with
            | Some x1, Some x2, Some x3 =>
                let c := (((n0 - 0xF0) * 64 + x1) * 64 + x2) * 64 + x3 in
                if (0x10000 <=? c) && (c <? 0x110000)
                then option_map (cons c) (decode_utf8 r3)
                else None
            | _, _, _ => None
            end
        | _ => None
        end
      else None
  end.

End Utf8.

(** ** Two more instances of the libraries

    A parser that is interrupted at the character ETX and raises
    [KeyboardInterrupt], and an engine that reports no error and writes
    nothing. *)

Module Interrupted.
Import Py Effects App.

Definition KeyboardInterrupt : exc :=
  {| exc_type := s2u "KeyboardInterrupt";
     derives_Exception := false;
     exc_str := [];
     str_raises := None |}.

Definition markdown_markdown (w : nat) (text : str) (exts : list str)
  : (exc + str) * nat :=
  if existsb (N.eqb 3) text then (inl KeyboardInterrupt, w)
  else (inr (s2u "<p>" ++ text ++ s2u "</p>"), w).

End Interrupted.

(** A parser that rejects the character BEL with an exception whose
    [__str__] raises [TypeError]. *)

Module Unprintable.
Import Py Effects App.

Definition TypeError : exc :=
  {| exc_type := s2u "TypeError";
     derives_Exception := true;
     exc_str := s2u "__str__ returned non-string (type NoneType)";
     str_raises := None |}.

Definition ParseError : exc :=
  {| exc_type := s2u "ParseError";
     derives_Exception := true;
     exc_str := [];
     str_raises := Some TypeError |}.

Definition markdown_markdown (w : nat) (text : str) (exts : list str)
  : (exc + str) * nat :=
  if existsb (N.eqb 7) text then (inl ParseError, w)
  else (inr (s2u "<p>" ++ text ++ s2u "</p>"), w).

End Unprintable.

Module Silent.
Import Py Effects App.

Definition pisa_CreatePDF (w : nat) (src : bytes) (dest : BytesIO) (enc : str)
  : (exc + pisaContext) * BytesIO * nat :=
  (inr {| err := 0 |}, dest, S w).

End Silent.

(** ** Sample runs on the instances *)

Module Samples.
Import Py Template Effects App Observe.

Definition long_text : str :=
  s2u "A paragraph that makes the document long enough".

(** A text with a letter of two bytes, one of three and one of four. *)
Definition accented : str :=
  s2u "<p>caf" ++ [0xE9; 0x20; 0x20AC; 0x20; 0x1F4DD]%N ++ s2u "</p>".

(** The conversion of [long_text] by the first instance, in the script. *)
Definition converted : outcome (option bytes) * process nat :=
  markdown_to_pdf_bytes Instance.markdown_markdown Instance.pisa_CreatePDF
    long_text (in_spinner Instance.start).

Definition converted_bytes : bytes :=
  Instance.header
  ++ flat_map utf8_char (html_template (s2u "<p>" ++ long_text ++ s2u "</p>")).

(** The same with the engine that writes nothing. *)
Definition converted_to_nothing : outcome (option bytes) * process nat :=
  markdown_to_pdf_bytes Instance.markdown_markdown Silent.pisa_CreatePDF
    long_text (in_spinner Instance.start).

(** The conversion of a text with the character ETX by the parser that is
    interrupted there. *)
Definition interrupted : outcome (option bytes) * process nat :=
  markdown_to_pdf_bytes Interrupted.markdown_markdown Instance.pisa_CreatePDF
    [0x68; 0x03]%N (in_spinner Instance.start).

End Samples.

(** * Properties *)

(** ** Searching in a text that is extended on the right *)

Module CssFacts.
Import Py Css.

Lemma starts_with_length (pat s : str) :
  starts_with pat s = true -> List.length pat <= List.length s.
Proof.
  revert s; induction pat as [|a pat IH]; intros [|b s] H; simpl in *;
    try lia; try discriminate.
  apply andb_true_iff in H as [_ H]. apply IH in H. lia.
Qed.

Lemma starts_with_app (pat s t : str) :
  starts_with pat s = true -> starts_with pat (s ++ t) = true.
Proof.
  revert s; induction pat as [|a pat IH]; intros [|b s] H; simpl in *;
    try reflexivity; try discriminate.
  apply andb_true_iff in H as [Hab H].
  rewrite Hab, (IH _ H). reflexivity.
Qed.

Lemma starts_with_app_false (pat s t : str) :
  starts_with pat s = false -> List.length pat <= List.length s ->
  starts_with pat (s ++ t) = false.
Proof.
  revert s; induction pat as [|a pat IH]; intros [|b s] H L; simpl in *;
    try discriminate; try lia.
  apply andb_false_iff in H as [H|H].
  - rewrite H. reflexivity.
  - rewrite (IH s H) by lia. apply andb_false_r.
Qed.

Lemma after_eq (pat s : str) :
  after pat s =
  if starts_with pat s then Some (skipn (List.length pat) s)
  else match s with [] => None | _ :: s' => after pat s' end.
Proof. destruct s; reflexivity. Qed.

Lemma before_eq (pat s : str) :
  before pat s =
  if starts_with pat s then Some []
  else match s with [] => None | c :: s' => option_map (cons c) (before pat s') end.
Proof. destruct s; reflexivity. Qed.

Lemma contains_eq (pat s : str) :
  contains pat s =
  starts_with pat s || match s with [] => false | _ :: s' => contains pat s' end.
Proof. destruct s; reflexivity. Qed.

Lemma after_length (pat s r : str) :
  after pat s = Some r -> List.length pat <= List.length s.
Proof.
  revert r; induction s as [|c s IH]; intros r; rewrite after_eq;
    destruct (starts_with pat _) eqn:E; intros H.
  - now apply starts_with_length.
  - discriminate.
  - now apply starts_with_length.
  - apply IH in H. simpl. lia.
Qed.

Lemma before_length (pat s b : str) :
  before pat s = Some b -> List.length pat <= List.length s.
Proof.
  revert b; induction s as [|c s IH]; intros b; rewrite before_eq;
    destruct (starts_with pat _) eqn:E; intros H.
  - now apply starts_with_length.
  - discriminate.
  - now apply starts_with_length.
  - destruct (before pat s) eqn:B; [|discriminate].
    specialize (IH _ eq_refl). simpl. lia.
Qed.

Lemma after_app (pat s t r : str) :
  after pat s = Some r -> after pat (s ++ t) = Some (r ++ t).
Proof.
  revert r; induction s as [|c s IH]; intros r H.
  - rewrite after_eq in H. destruct (starts_with pat []) eqn:E; [|discriminate].
    apply starts_with_length in E as L. destruct pat; [|simpl in L; lia].
    injection H as <-. rewrite after_eq. reflexivity.
  - rewrite after_eq in H. rewrite after_eq.
    destruct (starts_with pat (c :: s)) eqn:E.
    + rewrite (starts_with_app _ _ t E). injection H as <-.
      apply starts_with_length in E.
      rewrite skipn_app.
      replace (List.length pat - List.length (c :: s)) with 0 by lia.
      reflexivity.
    + pose proof (after_length _ _ _ H) as L.
      rewrite (starts_with_app_false pat (c :: s) t E) by (simpl; lia).
      change ((c :: s) ++ t) with (c :: (s ++ t)). cbv iota.
      now apply IH.
Qed.

Lemma before_app (pat s t b : str) :
  before pat s = Some b -> before pat (s ++ t) = Some b.
Proof.
  revert b; induction s as [|c s IH]; intros b H.
  - rewrite before_eq in H. destruct (starts_with pat []) eqn:E; [|discriminate].
    apply starts_with_length in E as L. destruct pat; [|simpl in L; lia].
    rewrite before_eq. exact H.
  - rewrite before_eq in H. rewrite before_eq.
    destruct (starts_with pat (c :: s)) eqn:E.
    + now rewrite (starts_with_app _ _ t E).
    + destruct (before pat s) as [b'|] eqn:B; [|discriminate].
      pose proof (before_length _ _ _ B) as L.
      rewrite (starts_with_app_false pat (c :: s) t E) by (simpl; lia).
      change ((c :: s) ++ t) with (c :: (s ++ t)). cbv iota.
      now rewrite (IH _ eq_refl).
Qed.

Lemma contains_app_r (pat s t : str) :
  contains pat s = true -> contains pat (s ++ t) = true.
Proof.
  induction s as [|c s IH]; rewrite contains_eq; intros H.
  - rewrite orb_false_r in H. rewrite contains_eq.
    now rewrite (starts_with_app _ _ t H).
  - apply orb_true_iff in H as [H|H].
    + rewrite contains_eq. now rewrite (starts_with_app _ _ t H).
    + change ((c :: s) ++ t) with (c :: (s ++ t)). rewrite contains_eq.
      rewrite (IH H). apply orb_true_r.
Qed.

Lemma contains_app_l (pat s t : str) :
  contains pat t = true -> contains pat (s ++ t) = true.
Proof.
  intros H; induction s as [|c s IH]; [exact H|].
  change ((c :: s) ++ t) with (c :: (s ++ t)). rewrite contains_eq.
  rewrite IH. apply orb_true_r.
Qed.

End CssFacts.

(** ** The encoder *)

Module EncodeFacts.
Import Py.

Lemma first_surrogate_app (s t : str) :
  forall i, first_surrogate i (s ++ t) = None ->
  first_surrogate i s = None /\ first_surrogate (i + List.length s) t = None.
Proof.
  induction s as [|c s IH]; intros i H; simpl in *.
  - now rewrite Nat.add_0_r.
  - destruct (is_surrogate c); [discriminate|].
    apply IH in H as [H1 H2]. split; [exact H1|].
    now replace (i + S (List.length s)) with (S i + List.length s) by lia.
Qed.

Lemma first_surrogate_shift (s : str) :
  forall i j, first_surrogate i s = None -> first_surrogate j s = None.
Proof.
  induction s as [|c s IH]; intros i j H; simpl in *; [reflexivity|].
  destruct (is_surrogate c); [discriminate|]. now apply (IH (S i)).
Qed.

Lemma encode_utf8_inr (s : str) (b : bytes) :
  encode_utf8 s = inr b -> b = flat_map utf8_char s.
Proof.
  unfold encode_utf8. destruct (first_surrogate 0 s) as [[[i c] n]|]; intros H.
  - discriminate.
  - now injection H as <-.
Qed.

(** The encoding of a concatenation is the concatenation of the encodings. *)
Lemma encode_utf8_app (s t : str) (b : bytes) :
  encode_utf8 (s ++ t) = inr b ->
  exists x y, encode_utf8 s = inr x /\ encode_utf8 t = inr y /\ b = x ++ y.
Proof.
  intros H. pose proof (encode_utf8_inr _ _ H) as ->.
  unfold encode_utf8 in *.
  destruct (first_surrogate 0 (s ++ t)) as [[[i c] n]|] eqn:E; [discriminate|].
  apply first_surrogate_app in E as [E1 E2].
  apply (first_surrogate_shift _ _ 0) in E2.
  rewrite E1, E2. do 2 eexists. repeat split. apply flat_map_app.
Qed.

End EncodeFacts.

(** ** The template *)

Module ShellFacts.
Import Py Template App Css Shell CssFacts.

Lemma html_template_parts_ok :
  fstring_parts (InText []) (s2u html_template_literal)
  = Some [Lit template_prefix; Field (s2u "html_content"); Lit template_suffix].
Proof. vm_compute. reflexivity. Qed.

(** The three f-strings of the program are well formed. *)
Lemma literals_well_formed :
  (exists parts, fstring_parts (InText []) (s2u html_template_literal) = Some parts) /\
  fstring_parts (InText [])
    (s2u "xhtml2pdf Error converting to PDF: {pisa_status.err}")
  = Some [Lit (s2u "xhtml2pdf Error converting to PDF: ");
          Field (s2u "pisa_status.err")] /\
  fstring_parts (InText [])
    (s2u "An unexpected error occurred during PDF conversion: {e}")
  = Some [Lit (s2u "An unexpected error occurred during PDF conversion: ");
          Field (s2u "e")] /\
  fstring_parts (InText []) (s2u "converted_markdown_{timestamp}.pdf")
  = Some [Lit (s2u "converted_markdown_"); Field (s2u "timestamp");
          Lit (s2u ".pdf")].
Proof.
  split; [eexists; apply html_template_parts_ok|].
  repeat split; vm_compute; reflexivity.
Qed.

Lemma html_template_shape (html_content : str) :
  html_template html_content = template_prefix ++ html_content ++ template_suffix.
Proof.
  unfold html_template, format, fstring. rewrite html_template_parts_ok.
  cbn [option_map fstring_render].
  change (var "html_content" html_content (s2u "html_content")) with html_content.
  now rewrite app_nil_r.
Qed.

Lemma format_exception (x : str) :
  format "An unexpected error occurred during PDF conversion: {e}" (var "e" x)
  = s2u "An unexpected error occurred during PDF conversion: " ++ x.
Proof.
  unfold format, fstring.
  destruct literals_well_formed as (_ & _ & -> & _).
  cbn [option_map fstring_render].
  change (var "e" x (s2u "e")) with x. now rewrite app_nil_r.
Qed.

Lemma format_engine_error (x : str) :
  format "xhtml2pdf Error converting to PDF: {pisa_status.err}"
    (var "pisa_status.err" x)
  = s2u "xhtml2pdf Error converting to PDF: " ++ x.
Proof.
  unfold format, fstring.
  destruct literals_well_formed as (_ & -> & _).
  cbn [option_map fstring_render].
  change (var "pisa_status.err" x (s2u "pisa_status.err")) with x.
  now rewrite app_nil_r.
Qed.

Lemma style_block_template_prefix (rest : str) :
  style_block (template_prefix ++ rest) = Some stylesheet.
Proof.
  assert (E : exists r, after (s2u "<style>") template_prefix = Some r
                        /\ before (s2u "</style>") r = Some stylesheet).
  { eexists; split; vm_compute; reflexivity. }
  destruct E as (r & A & B). unfold style_block.
  rewrite (after_app _ _ rest _ A). apply before_app, B.
Qed.

Lemma style_block_html_template (html_content : str) :
  style_block (html_template html_content) = Some stylesheet.
Proof. rewrite html_template_shape. apply style_block_template_prefix. Qed.

End ShellFacts.

(** ** The conversion function, case by case *)

Module PipelineFacts.
Import Py Template Effects App Css Shell Stages ShellFacts.

Section PipelineFacts.

Variable W : Type.
Variable markdown_markdown : W -> str -> list str -> (exc + str) * W.
Variable pisa_CreatePDF :
  W -> bytes -> BytesIO -> str -> (exc + pisaContext) * BytesIO * W.

Lemma markdown_to_pdf_bytes_unfold (md : str) (p : process W) :
  markdown_to_pdf_bytes markdown_markdown pisa_CreatePDF md p
  = run_result markdown_markdown pisa_CreatePDF md p.
Proof.
  unfold run_result, markdown_to_pdf_bytes, try_except_Exception, try_block,
    call_markdown, call_CreatePDF, bind, emit, interact, logging_error,
    logging_info, lift, raise, ret, py_str.
  cbn [world events].
  destruct (markdown_markdown (world p) md extensions) as [[e|html] w1];
    cbn [parse_result].
  - unfold handled. destruct (derives_Exception e); [|reflexivity].
    destruct (str_raises e); [|rewrite format_exception]; reflexivity.
  - destruct (encode_utf8 (html_template html)) as [e|src]; cbn [style_result].
    + unfold handled. destruct (derives_Exception e); [|reflexivity].
      destruct (str_raises e); [|rewrite format_exception]; reflexivity.
    + cbn [world events].
      destruct (pisa_CreatePDF w1 src BytesIO_new (s2u "utf-8"))
        as [[[e|status] dest] w2]; cbn [render_result].
      * unfold handled. destruct (derives_Exception e); [|reflexivity].
        destruct (str_raises e); [|rewrite format_exception]; reflexivity.
      * cbn [fst snd]. destruct (int_truthy (err status)).
        -- rewrite format_engine_error. reflexivity.
        -- reflexivity.
Qed.

(** [except Exception] leaves alone what is not an instance of
    [Exception]: such an exception of the parser leaves the call. *)
Lemma non_Exception_propagates (md : str) (p : process W) (e : exc) (w1 : W) :
  markdown_markdown (world p) md extensions = (inl e, w1) ->
  derives_Exception e = false ->
  markdown_to_pdf_bytes markdown_markdown pisa_CreatePDF md p
  = (Raise e,
     {| world := w1; events := events p ++ [CallMarkdown md extensions] |}).
Proof.
  intros E D. rewrite markdown_to_pdf_bytes_unfold. unfold run_result.
  rewrite E. cbn [parse_result]. unfold handled. now rewrite D.
Qed.

Lemma encode_utf8_fault (s : str) (e : exc) :
  encode_utf8 s = inl e -> derives_Exception e = true.
Proof.
  unfold encode_utf8.
  destruct (first_surrogate 0 s) as [[[i c] n]|]; intros H; [|discriminate].
  now injection H as <-.
Qed.

Lemma encode_utf8_fault_prints (s : str) (e : exc) :
  encode_utf8 s = inl e -> str_raises e = None.
Proof.
  unfold encode_utf8.
  destruct (first_surrogate 0 s) as [[[i c] n]|]; intros H; [|discriminate].
  now injection H as <-.
Qed.

Lemma handled_Exception (e : exc) (w : W) (evs : list event) :
  derives_Exception e = true ->
  str_raises e = None ->
  handled e w evs
  = (Return None,
     {| world := w;
        events := evs ++
          [Log ERROR
             (s2u "An unexpected error occurred during PDF conversion: "
              ++ exc_str e) true] |}).
Proof. unfold handled. now intros -> ->. Qed.

Lemma lstrip_whitespace (s : str) : whitespace_only s = true -> lstrip s = [].
Proof.
  induction s as [|c s IH]; simpl; [reflexivity|].
  intros H. apply andb_true_iff in H as [-> H]. now apply IH.
Qed.

Lemma strip_whitespace (s : str) : whitespace_only s = true -> strip s = [].
Proof. intros H. unfold strip. now rewrite (lstrip_whitespace _ H). Qed.

Lemma filter_snoc_false (A : Type) (f : A -> bool) (l : list A) (x : A) :
  f x = false -> filter f (l ++ [x]) = filter f l.
Proof. intros H. rewrite filter_app. simpl. rewrite H. apply app_nil_r. Qed.

End PipelineFacts.

End PipelineFacts.

(** ** The orchestrator and the style injector *)

Module Properties.
Import Py Template Effects App Css Shell Stages.
Import CssFacts EncodeFacts ShellFacts PipelineFacts.

Section Orchestrator.

Variable W : Type.
Variable markdown_markdown : W -> str -> list str -> (exc + str) * W.
Variable pisa_CreatePDF :
  W -> bytes -> BytesIO -> str -> (exc + pisaContext) * BytesIO * W.
Variable datetime_now_strftime : W -> str -> str.

Local Opaque html_template encode_utf8.

Ltac stage_cases md p :=
  rewrite markdown_to_pdf_bytes_unfold; unfold run_result;
  destruct (markdown_markdown (world p) md extensions)
    as [[e0|html] w1] eqn:Eparse; cbn [parse_result];
  [| destruct (encode_utf8 (html_template html)) as [e0|src] eqn:Estyle;
     cbn [style_result];
     [| destruct (pisa_CreatePDF w1 src BytesIO_new (s2u "utf-8"))
          as [[[e0|status] dest] w2] eqn:Erender; cbn [render_result] ] ].

Ltac merge H1 H2 :=
  rewrite H1 in H2; (discriminate H2 || (inversion H2; clear H2; subst)).

Ltac same_stage :=
  unfold parsed, styled in *;
  repeat match goal with
  | H1 : markdown_markdown _ _ _ = _, H2 : markdown_markdown _ _ _ = _ |- _ =>
      merge H1 H2
  | H1 : encode_utf8 _ = _, H2 : encode_utf8 _ = _ |- _ => merge H1 H2
  | H1 : pisa_CreatePDF _ _ _ _ = _, H2 : pisa_CreatePDF _ _ _ _ = _ |- _ =>
      merge H1 H2
  end.

Ltac handler_cases e :=
  unfold handled; destruct (derives_Exception e) eqn:Dexc;
  [destruct (str_raises e) as [e1|] eqn:Sexc|].

Ltac stage_raises_here :=
  solve [ eapply parsing_raises; eassumption
        | eapply styling_raises; eassumption
        | eapply rendering_raises; eassumption ].

(** C1, as the code has it.  When no stage raises, the call returns, a
    byte buffer or [None].  An exception of the parsing, the styling or the
    rendering stage that is an instance of [Exception], and that can be
    written to the log, is caught: the result is [None], and the last
    thing the call has done is to log the fault as an error, with the
    traceback.  An exception of a stage that is not an instance of
    [Exception] is not caught: it reaches the caller. *)
Theorem markdown_to_pdf_bytes_catches_Exceptions (md : str) (p : process W) :
  exists (o : outcome (option bytes)) (p' : process W),
    markdown_to_pdf_bytes markdown_markdown pisa_CreatePDF md p = (o, p') /\
    ((forall e, ~ stage_raises markdown_markdown pisa_CreatePDF md (world p) e) ->
     exists r : option bytes, o = Return r) /\
    (forall e,
        stage_raises markdown_markdown pisa_CreatePDF md (world p) e ->
        derives_Exception e = true ->
        str_raises e = None ->
        o = Return None /\
        exists evs,
          events p' = events p ++ evs ++
            [Log ERROR
               (s2u "An unexpected error occurred during PDF conversion: "
                ++ exc_str e) true]) /\
    (forall e,
        stage_raises markdown_markdown pisa_CreatePDF md (world p) e ->
        derives_Exception e = false ->
        o = Raise e).
Proof.
  stage_cases md p;
    [handler_cases e0 | handler_cases e0 | handler_cases e0
     | destruct (int_truthy (err status))];
    do 2 eexists; (split; [reflexivity|]); (split; [|split]).
  all: try (intros H; exfalso; apply (H e0); stage_raises_here).
  all: try (intros _; eexists; reflexivity).
  all: intros e R; destruct R; same_stage; intros; try congruence.
  all: try reflexivity.
  all: split; [reflexivity|]; cbn [events]; rewrite <- ?app_assoc;
    first [ exists [CallMarkdown md extensions]; reflexivity
          | eexists [_; _]; reflexivity ].
Qed.

Ltac no_bytes :=
  intros b; split;
  [ discriminate
  | intros (st' & d' & w' & (h' & v' & s' & P' & S' & E') & Z' & B');
    same_stage ].

Ltac no_engine_error :=
  intros (st' & d' & w' & (h' & v' & s' & P' & S' & E') & Z'); same_stage.

Ltac fault_clause :=
  intros e R; destruct R; same_stage; intros; congruence.


(** C5.  For every input the parser is called, once, on the input itself
    and with the extensions [extra], [smarty] and [fenced_code], these three
    and in this order; it is the first thing the call does. *)
Theorem parser_called_with_three_extensions (md : str) (p : process W) :
  exists (o : outcome (option bytes)) (p' : process W) (rest : list event),
    markdown_to_pdf_bytes markdown_markdown pisa_CreatePDF md p = (o, p') /\
    events p' =
      events p ++
      CallMarkdown md [s2u "extra"; s2u "smarty"; s2u "fenced_code"] :: rest /\
    parser_calls rest = [].
Proof.
  stage_cases md p;
    [handler_cases e0 | handler_cases e0 | handler_cases e0
     | destruct (int_truthy (err status))];
    do 3 eexists; (split; [reflexivity|]); cbn [events];
    rewrite <- ?app_assoc; (split; [reflexivity|]); reflexivity.
Qed.

(** C3.  For an input that is empty or made of white space only, the
    conversion branch of the script calls neither the parser nor the
    engine: when the button was pressed it shows the warning that asks for
    some text, and that is all it does. *)
Theorem whitespace_input_short_circuits
  (convert_button : bool) (markdown_input : str) (p : process W) :
  whitespace_only markdown_input = true ->
  exists p' : process W,
    conversion_logic markdown_markdown pisa_CreatePDF datetime_now_strftime
      convert_button markdown_input p = (Return tt, p') /\
    world p' = world p /\
    engine_calls (events p') = engine_calls (events p) /\
    parser_calls (events p') = parser_calls (events p) /\
    (convert_button = true ->
     events p' =
       events p ++
       [StWarning
          ([0x26A0; 0xFE0F]%N
           ++ s2u " Please enter some Markdown text in the input area first.")]).
Proof.
  intros Hws. unfold conversion_logic.
  rewrite (strip_whitespace _ Hws). cbn [str_truthy negb].
  destruct convert_button.
  - eexists. split; [reflexivity|]. cbn [world events].
    unfold engine_calls, parser_calls.
    rewrite !filter_snoc_false by reflexivity. auto.
  - exists p. repeat split; auto. discriminate.
Qed.

End Orchestrator.

Section StyleInjector.

(** C6.  Every styled document declares the rules of the compact layout:
    a page margin of 0.2in; a sans-serif body at 9pt with line height 1.2;
    paragraphs with top margin 0 and bottom margin 0.08em; lists padded
    18px on the left, list items without margins or padding above and
    below; [h1] centred at 1.6em; [h2] at 1.15em with a bottom border of
    0.5px and a top margin of 0.6em; [h3] to [h6] bold at 1.0em with a top
    margin of 0.4em; [code] and [pre] in monospace on a grey background;
    tables of full width with collapsed borders and a grey header row;
    images at most as wide as the page; links coloured, underlined only
    under the pointer. *)
Theorem styled_document_declares_compact_layout (html_content : str) :
  forallb (declares_rule (html_template html_content)) compact_layout_rules
  = true.
Proof.
  apply forallb_forall. intros r Hin.
  unfold declares_rule, declares. rewrite style_block_html_template.
  revert r Hin. apply forallb_forall. vm_compute. reflexivity.
Qed.

(** C10.  The styled document is a constant text, then the markup of the
    parser as it is, then a constant text; the stylesheet lies in the
    first constant text.  So the stylesheets of the styled documents of any
    two inputs are the same, character for character. *)
Theorem stylesheet_is_constant (html1 html2 : str) :
  html_template html1 = template_prefix ++ html1 ++ template_suffix /\
  html_template html2 = template_prefix ++ html2 ++ template_suffix /\
  style_block template_prefix = Some stylesheet /\
  style_block (html_template html1) = Some stylesheet /\
  style_block (html_template html2) = Some stylesheet.
Proof.
  split; [apply html_template_shape|].
  split; [apply html_template_shape|].
  split; [vm_compute; reflexivity|].
  split; apply style_block_html_template.
Qed.

End StyleInjector.

End Properties.

(** ** Lone surrogates *)

Module SurrogateFacts.
Import Py Template App Shell Stages Observe ShellFacts.

Lemma first_surrogate_none (s : str) :
  forall i, first_surrogate i s = None <-> has_surrogate s = false.
Proof.
  unfold has_surrogate.
  induction s as [|c s IH]; intros i; simpl; [tauto|].
  destruct (is_surrogate c); simpl; [split; discriminate|apply IH].
Qed.

Lemma encode_utf8_succeeds (s : str) :
  (exists b, encode_utf8 s = inr b) <-> has_surrogate s = false.
Proof.
  rewrite <- (first_surrogate_none s 0). unfold encode_utf8.
  destruct (first_surrogate 0 s) as [[[i c] n]|]; split.
  - intros [b H]. discriminate.
  - discriminate.
  - reflexivity.
  - eauto.
Qed.

Lemma encode_utf8_fault_type (s : str) (e : exc) :
  encode_utf8 s = inl e -> exc_type e = s2u "UnicodeEncodeError".
Proof.
  unfold encode_utf8.
  destruct (first_surrogate 0 s) as [[[i c] n]|]; intros H; [|discriminate].
  injection H as <-. reflexivity.
Qed.

Lemma has_surrogate_template (html : str) :
  has_surrogate (html_template html) = has_surrogate html.
Proof.
  rewrite html_template_shape. unfold has_surrogate.
  rewrite !existsb_app.
  replace (existsb is_surrogate template_prefix) with false
    by (vm_compute; reflexivity).
  replace (existsb is_surrogate template_suffix) with false
    by (vm_compute; reflexivity).
  now rewrite orb_false_r.
Qed.

(** The styled document can be encoded exactly when the markup of the
    parser holds no surrogate code point: the template itself is ASCII. *)
Theorem styled_iff_no_surrogate (html : str) :
  (exists src, styled html src) <-> has_surrogate html = false.
Proof.
  unfold styled. rewrite encode_utf8_succeeds.
  now rewrite has_surrogate_template.
Qed.

End SurrogateFacts.

(** ** Encoding and decoding *)

Module Utf8Facts.
Import Py Template App Shell Stages Utf8 EncodeFacts ShellFacts.

Local Open Scope N_scope.

Lemma to_N_byte_of_N (n : N) : n < 256 -> Byte.to_N (byte_of_N n) = n.
Proof.
  intros H. unfold byte_of_N. destruct (Byte.of_N n) as [b|] eqn:E.
  - now apply Byte.to_of_N.
  - apply Byte.of_N_None_iff in E. lia.
Qed.

Lemma lor_disjoint (a y : N) : N.land a y = 0 -> N.lor a y = a + y.
Proof.
  intros H. rewrite <- (N.lxor_lor _ _ H). symmetry.
  now apply N.add_nocarry_lxor.
Qed.

Lemma land_shifted (k y : N) :
  y < 2 ^ k -> forall a, N.land (a * 2 ^ k) y = 0.
Proof.
  intros H a. apply N.bits_inj_0. intros n. rewrite N.land_spec.
  destruct (N.lt_ge_cases n k) as [L|L].
  - rewrite N.mul_pow2_bits_low by exact L. reflexivity.
  - destruct (N.eq_dec y 0) as [->|Hy]; [rewrite N.bits_0; apply andb_false_r|].
    rewrite (N.bits_above_log2 y n); [apply andb_false_r|].
    apply N.log2_lt_pow2 in H; lia.
Qed.

Lemma lor_80 (y : N) : y < 64 -> N.lor 0x80 y = 0x80 + y.
Proof. intros H. apply lor_disjoint, (land_shifted 6 y H 2). Qed.

Lemma lor_C0 (y : N) : y < 32 -> N.lor 0xC0 y = 0xC0 + y.
Proof. intros H. apply lor_disjoint, (land_shifted 5 y H 6). Qed.

Lemma lor_E0 (y : N) : y < 16 -> N.lor 0xE0 y = 0xE0 + y.
Proof. intros H. apply lor_disjoint, (land_shifted 4 y H 14). Qed.

Lemma lor_F0 (y : N) : y < 8 -> N.lor 0xF0 y = 0xF0 + y.
Proof. intros H. apply lor_disjoint, (land_shifted 3 y H 30). Qed.

Lemma low_six_bits (x : N) : N.land x 0x3F = x mod 64.
Proof. exact (N.land_ones x 6). Qed.

Lemma shiftr_6 (x : N) : N.shiftr x 6 = x / 64.
Proof. exact (N.shiftr_div_pow2 x 6). Qed.

Lemma shiftr_12 (x : N) : N.shiftr x 12 = x / 64 / 64.
Proof. rewrite N.Div0.div_div. exact (N.shiftr_div_pow2 x 12). Qed.

Lemma shiftr_18 (x : N) : N.shiftr x 18 = x / 64 / 64 / 64.
Proof. rewrite !N.Div0.div_div. exact (N.shiftr_div_pow2 x 18). Qed.

(** Quotient and remainder by 64, as variables for lia. *)
Lemma split_64 (x : N) :
  exists q r, x / 64 = q /\ x mod 64 = r /\ x = 64 * q + r /\ r < 64.
Proof.
  exists (x / 64), (x mod 64). repeat split.
  - apply N.div_mod. discriminate.
  - apply N.mod_lt. discriminate.
Qed.

(** The bytes of a code point, by its size. *)
Lemma utf8_char_1 (c : codepoint) : c < 0x80 -> utf8_char c = [byte_of_N c].
Proof. intros H. unfold utf8_char. apply N.ltb_lt in H. now rewrite H. Qed.

Lemma utf8_char_2 (c : codepoint) :
  0x80 <= c -> c < 0x800 ->
  utf8_char c = [byte_of_N (0xC0 + c / 64); byte_of_N (0x80 + c mod 64)].
Proof.
  intros L H. unfold utf8_char.
  replace (c <? 0x80) with false by (symmetry; apply N.ltb_ge; lia).
  replace (c <? 0x800) with true by (symmetry; apply N.ltb_lt; lia).
  rewrite low_six_bits, shiftr_6.
  destruct (split_64 c) as (q & r & -> & -> & E & R).
  rewrite lor_C0 by lia. rewrite lor_80 by lia. reflexivity.
Qed.

Lemma utf8_char_3 (c : codepoint) :
  0x800 <= c -> c < 0x10000 ->
  utf8_char c =
    [byte_of_N (0xE0 + c / 64 / 64);
     byte_of_N (0x80 + (c / 64) mod 64);
     byte_of_N (0x80 + c mod 64)].
Proof.
  intros L H. unfold utf8_char.
  replace (c <? 0x80) with false by (symmetry; apply N.ltb_ge; lia).
  replace (c <? 0x800) with false by (symmetry; apply N.ltb_ge; lia).
  replace (c <? 0x10000) with true by (symmetry; apply N.ltb_lt; lia).
  rewrite !low_six_bits, shiftr_6, shiftr_12.
  destruct (split_64 c) as (q & r & -> & -> & E & R).
  destruct (split_64 q) as (q1 & r1 & -> & -> & E1 & R1).
  rewrite lor_E0 by lia. rewrite !lor_80 by lia. reflexivity.
Qed.

Lemma utf8_char_4 (c : codepoint) :
  0x10000 <= c -> c < 0x110000 ->
  utf8_char c =
    [byte_of_N (0xF0 + c / 64 / 64 / 64);
     byte_of_N (0x80 + (c / 64 / 64) mod 64);
     byte_of_N (0x80 + (c / 64) mod 64);
     byte_of_N (0x80 + c mod 64)].
Proof.
  intros L H. unfold utf8_char.
  replace (c <? 0x80) with false by (symmetry; apply N.ltb_ge; lia).
  replace (c <? 0x800) with false by (symmetry; apply N.ltb_ge; lia).
  replace (c <? 0x10000) with false by (symmetry; apply N.ltb_ge; lia).
  rewrite !low_six_bits, shiftr_6, shiftr_12, shiftr_18.
  destruct (split_64 c) as (q & r & -> & -> & E & R).
  destruct (split_64 q) as (q1 & r1 & -> & -> & E1 & R1).
  destruct (split_64 q1) as (q2 & r2 & -> & -> & E2 & R2).
  rewrite lor_F0 by lia. rewrite !lor_80 by lia. reflexivity.
Qed.

Lemma continuation_byte (r : N) :
  r < 64 -> continuation (byte_of_N (0x80 + r)) = Some r.
Proof.
  intros H. unfold continuation. rewrite to_N_byte_of_N by lia.
  replace (0x80 <=? 0x80 + r) with true by (symmetry; apply N.leb_le; lia).
  replace (0x80 + r <? 0xC0) with true by (symmetry; apply N.ltb_lt; lia).
  cbn [andb]. f_equal. lia.
Qed.

Ltac decide_tests :=
  repeat match goal with
  | |- context [?a <? ?b] =>
      (replace (a <? b) with true by (symmetry; apply N.ltb_lt; lia))
      || (replace (a <? b) with false by (symmetry; apply N.ltb_ge; lia))
  | |- context [?a <=? ?b] =>
      (replace (a <=? b) with true by (symmetry; apply N.leb_le; lia))
      || (replace (a <=? b) with false by (symmetry; apply N.leb_gt; lia))
  end.

Lemma decode_1 (n : N) (rest : bytes) :
  n < 0x80 ->
  decode_utf8 (byte_of_N n :: rest) = option_map (cons n) (decode_utf8 rest).
Proof.
  intros H. cbn [decode_utf8]. rewrite to_N_byte_of_N by lia.
  decide_tests. reflexivity.
Qed.

Lemma decode_2 (q r : N) (rest : bytes) :
  2 <= q -> q < 32 -> r < 64 ->
  decode_utf8 (byte_of_N (0xC0 + q) :: byte_of_N (0x80 + r) :: rest)
  = option_map (cons (64 * q + r)) (decode_utf8 rest).
Proof.
  intros L H R. cbn [decode_utf8]. rewrite to_N_byte_of_N by lia.
  rewrite continuation_byte by exact R.
  decide_tests. replace ((0xC0 + q - 0xC0) * 64 + r) with (64 * q + r) by lia.
  reflexivity.
Qed.

Lemma decode_3 (q r1 r : N) (rest : bytes) :
  q < 16 -> r1 < 64 -> r < 64 ->
  0x800 <= 64 * (64 * q + r1) + r ->
  is_surrogate (64 * (64 * q + r1) + r) = false ->
  decode_utf8
    (byte_of_N (0xE0 + q) :: byte_of_N (0x80 + r1) :: byte_of_N (0x80 + r)
     :: rest)
  = option_map (cons (64 * (64 * q + r1) + r)) (decode_utf8 rest).
Proof.
  intros H R1 R L S. cbn [decode_utf8]. rewrite to_N_byte_of_N by lia.
  rewrite !continuation_byte by assumption.
  replace (((0xE0 + q - 0xE0) * 64 + r1) * 64 + r)
    with (64 * (64 * q + r1) + r) by lia.
  rewrite S. decide_tests. reflexivity.
Qed.

Lemma decode_4 (q r2 r1 r : N) (rest : bytes) :
  q < 8 -> r2 < 64 -> r1 < 64 -> r < 64 ->
  0x10000 <= 64 * (64 * (64 * q + r2) + r1) + r ->
  64 * (64 * (64 * q + r2) + r1) + r < 0x110000 ->
  decode_utf8
    (byte_of_N (0xF0 + q) :: byte_of_N (0x80 + r2) :: byte_of_N (0x80 + r1)
     :: byte_of_N (0x80 + r) :: rest)
  = option_map (cons (64 * (64 * (64 * q + r2) + r1) + r)) (decode_utf8 rest).
Proof.
  intros H R2 R1 R L U. cbn [decode_utf8]. rewrite to_N_byte_of_N by lia.
  rewrite !continuation_byte by assumption.
  replace ((((0xF0 + q - 0xF0) * 64 + r2) * 64 + r1) * 64 + r)
    with (64 * (64 * (64 * q + r2) + r1) + r) by lia.
  decide_tests. reflexivity.
Qed.

(** Decoding the bytes of one code point gives the code point back. *)
Lemma decode_utf8_char (c : codepoint) (rest : bytes) :
  in_range c = true -> is_surrogate c = false ->
  decode_utf8 (utf8_char c ++ rest) = option_map (cons c) (decode_utf8 rest).
Proof.
  unfold in_range. intros H S. apply N.ltb_lt in H.
  destruct (N.lt_ge_cases c 0x80) as [C1|C1];
    [|destruct (N.lt_ge_cases c 0x800) as [C2|C2];
      [|destruct (N.lt_ge_cases c 0x10000) as [C3|C3]]].
  - rewrite utf8_char_1 by exact C1. now apply decode_1.
  - rewrite utf8_char_2 by assumption.
    destruct (split_64 c) as (q & r & -> & -> & E & R).
    cbn [app]. rewrite decode_2 by lia. now subst c.
  - rewrite utf8_char_3 by assumption.
    destruct (split_64 c) as (q & r & -> & -> & E & R).
    destruct (split_64 q) as (q1 & r1 & -> & -> & E1 & R1).
    cbn [app]. subst q c. rewrite decode_3; (lia || assumption || reflexivity).
  - rewrite utf8_char_4 by assumption.
    destruct (split_64 c) as (q & r & -> & -> & E & R).
    destruct (split_64 q) as (q1 & r1 & -> & -> & E1 & R1).
    destruct (split_64 q1) as (q2 & r2 & -> & -> & E2 & R2).
    cbn [app]. subst q1 q c. rewrite decode_4; (lia || reflexivity).
Qed.

Lemma no_surrogate_cons (c : codepoint) (s : str) (i : nat) :
  first_surrogate i (c :: s) = None ->
  is_surrogate c = false /\ first_surrogate (S i) s = None.
Proof. simpl. destruct (is_surrogate c); [discriminate|auto]. Qed.

(** Decoding what the encoder returns gives the text back. *)
Lemma decode_encode (s : str) (b : bytes) :
  forallb in_range s = true ->
  encode_utf8 s = inr b ->
  decode_utf8 b = Some s.
Proof.
  intros R E. pose proof (encode_utf8_inr _ _ E) as ->.
  unfold encode_utf8 in E.
  destruct (first_surrogate 0 s) as [[[i c] n]|] eqn:F; [discriminate|].
  clear E. revert F. generalize 0%nat.
  induction s as [|c s IH]; intros i F; [reflexivity|].
  cbn [forallb] in R. apply andb_true_iff in R as [Rc Rs].
  apply no_surrogate_cons in F as [Sc F].
  cbn [flat_map]. rewrite decode_utf8_char by assumption.
  now rewrite (IH Rs _ F).
Qed.

(** What the engine is handed decodes, in the encoding the call names to
    it, to the styled document: nothing of the markup is lost or changed
    on the way. *)
Theorem engine_input_decodes_to_styled_document (html : str) (src : bytes) :
  forallb in_range html = true ->
  styled html src ->
  decode_utf8 src = Some (html_template html).
Proof.
  unfold styled. intros R E. apply decode_encode; [|exact E].
  rewrite html_template_shape, !forallb_app, R.
  replace (forallb in_range template_prefix) with true
    by (vm_compute; reflexivity).
  replace (forallb in_range template_suffix) with true
    by (vm_compute; reflexivity).
  reflexivity.
Qed.

End Utf8Facts.

(** ** What one call does *)

Module Behaviour.
Import Py Template Effects App Css Shell Stages Observe.
Import CssFacts EncodeFacts ShellFacts PipelineFacts SurrogateFacts.

Section Call.

Variable W : Type.
Variable markdown_markdown : W -> str -> list str -> (exc + str) * W.
Variable pisa_CreatePDF :
  W -> bytes -> BytesIO -> str -> (exc + pisaContext) * BytesIO * W.

Local Opaque html_template encode_utf8.

Ltac by_stage md p :=
  rewrite markdown_to_pdf_bytes_unfold; unfold run_result;
  destruct (markdown_markdown (world p) md extensions)
    as [[e0|html] w1] eqn:Eparse; cbn [parse_result];
  [| destruct (encode_utf8 (html_template html)) as [e0|src] eqn:Estyle;
     cbn [style_result];
     [| destruct (pisa_CreatePDF w1 src BytesIO_new (s2u "utf-8"))
          as [[[e0|status] dest] w2] eqn:Erender; cbn [render_result] ] ].

Ltac unify_stages :=
  unfold parsed, styled in *;
  repeat match goal with
  | H1 : markdown_markdown _ _ _ = _, H2 : markdown_markdown _ _ _ = _ |- _ =>
      rewrite H1 in H2; (discriminate H2 || (inversion H2; clear H2; subst))
  | H1 : encode_utf8 _ = _, H2 : encode_utf8 _ = _ |- _ =>
      rewrite H1 in H2; (discriminate H2 || (inversion H2; clear H2; subst))
  | H1 : pisa_CreatePDF _ _ _ _ = _, H2 : pisa_CreatePDF _ _ _ _ = _ |- _ =>
      rewrite H1 in H2; (discriminate H2 || (inversion H2; clear H2; subst))
  end.

Ltac by_handler e :=
  unfold handled; destruct (derives_Exception e) eqn:Dexc;
  [destruct (str_raises e) as [e1|] eqn:Sexc|].

(** A call that returns has logged one record, the last thing it did: at
    level [INFO] when it returns bytes, at level [ERROR] when it returns
    [None].  A call that raises has logged nothing. *)
Theorem one_log_record_per_call (md : str) (p : process W) :
  exists (o : outcome (option bytes)) (p' : process W) (evs : list event),
    markdown_to_pdf_bytes markdown_markdown pisa_CreatePDF md p = (o, p') /\
    events p' = events p ++ evs /\
    match o with
    | Return r =>
        exists before lvl msg info,
          evs = before ++ [Log lvl msg info] /\
          logs before = [] /\
          (lvl = INFO <-> r <> None)
    | Raise _ => logs evs = []
    end.
Proof.
  assert (N : forall b : bytes, Some b <> None) by discriminate.
  assert (I : INFO <> ERROR) by discriminate.
  by_stage md p;
    [by_handler e0 | by_handler e0 | by_handler e0
     | destruct (int_truthy (err status))];
    do 3 eexists; (split; [reflexivity|]); cbn [events];
    rewrite <- ?app_assoc; (split; [reflexivity|]); cbn [app];
    try reflexivity.
  - exists [CallMarkdown md extensions]. do 3 eexists.
    split; [reflexivity|]. split; [reflexivity|]. split; [discriminate|].
    intros H; now contradiction H.
  - exists [CallMarkdown md extensions]. do 3 eexists.
    split; [reflexivity|]. split; [reflexivity|]. split; [discriminate|].
    intros H; now contradiction H.
  - eexists [_; _]. do 3 eexists.
    split; [reflexivity|]. split; [reflexivity|]. split; [discriminate|].
    intros H; now contradiction H.
  - eexists [_; _]. do 3 eexists.
    split; [reflexivity|]. split; [reflexivity|]. split; [discriminate|].
    intros H; now contradiction H.
  - eexists [_; _]. do 3 eexists.
    split; [reflexivity|]. split; [reflexivity|]. split; auto.
Qed.

(** Apart from its log record, a call does nothing but call the two
    libraries: the parser, once, on the input as it is; then the engine, at
    most once, on a fresh empty buffer and with the encoding [utf-8], and
    only when the parser has returned and its markup could be encoded.  It
    shows no widget. *)
Theorem library_calls_of_a_call (md : str) (p : process W) :
  exists (o : outcome (option bytes)) (p' : process W) (evs : list event),
    markdown_to_pdf_bytes markdown_markdown pisa_CreatePDF md p = (o, p') /\
    events p' = events p ++ evs /\
    ((actions evs = [CallMarkdown md extensions] /\
      ((exists e w1, markdown_markdown (world p) md extensions = (inl e, w1)) \/
       (exists html w1 e,
           parsed markdown_markdown md (world p) html w1 /\
           encode_utf8 (html_template html) = inl e)))
     \/
     (exists html w1 src,
         parsed markdown_markdown md (world p) html w1 /\
         styled html src /\
         actions evs =
           [CallMarkdown md extensions;
            CallCreatePDF src BytesIO_new (s2u "utf-8")])).
Proof.
  by_stage md p;
    [by_handler e0 | by_handler e0 | by_handler e0
     | destruct (int_truthy (err status))];
    do 3 eexists; (split; [reflexivity|]); cbn [events];
    rewrite <- ?app_assoc; (split; [reflexivity|]).
  1, 2, 3: left; split; [reflexivity|]; left; eauto.
  1, 2, 3: left; split; [reflexivity|]; right; exists html, w1, e0; auto.
  all: right; exists html, w1, src;
    split; [exact Eparse|]; split; [exact Estyle|]; reflexivity.
Qed.

(** An exception leaves the call in two cases and in no other: one of the
    libraries has raised it and it is not an instance of [Exception]; or
    one of the libraries has raised an instance of [Exception] and this is
    what its [__str__] raises when the handler writes it to the log. *)
Theorem raises_iff_uncaught_or_unprintable
  (md : str) (p : process W) (e : exc) :
  (exists p' : process W,
      markdown_to_pdf_bytes markdown_markdown pisa_CreatePDF md p
      = (Raise e, p'))
  <->
  ((derives_Exception e = false /\
    library_raises markdown_markdown pisa_CreatePDF md (world p) e) \/
   (exists e0 : exc,
       derives_Exception e0 = true /\
       str_raises e0 = Some e /\
       library_raises markdown_markdown pisa_CreatePDF md (world p) e0)).
Proof.
  unfold library_raises. split.
  - intros [p' H]. revert H. by_stage md p;
      [by_handler e0 | by_handler e0 | by_handler e0
       | destruct (int_truthy (err status))];
      intros H; inversion H; subst.
    + right. exists e0. split; [exact Dexc|]. split; [exact Sexc|].
      left. eauto.
    + left. split; [exact Dexc|]. left. eauto.
    + apply encode_utf8_fault_prints in Estyle. congruence.
    + apply encode_utf8_fault in Estyle. congruence.
    + right. exists e0. split; [exact Dexc|]. split; [exact Sexc|].
      right. exists html, w1, src, dest, w2. auto.
    + left. split; [exact Dexc|]. right. exists html, w1, src, dest, w2. auto.
  - intros [[D L]|(e' & D & S & L)];
      destruct L as [[w1' H]|(html' & w1' & src' & dest' & w2' & P & S' & H)].
    + by_stage md p; try discriminate H.
      inversion H; subst. unfold handled. rewrite D. eauto.
    + by_stage md p; unify_stages. unfold handled. rewrite D. eauto.
    + by_stage md p; try discriminate H.
      inversion H; subst. unfold handled. rewrite D, S. eauto.
    + by_stage md p; unify_stages. unfold handled. rewrite D, S. eauto.
Qed.

(** When the engine reports errors the call returns [None], whatever the
    engine has written to the buffer, and its log record is an error without
    traceback that gives the number of errors in decimal. *)
Theorem engine_errors_are_reported
  (md : str) (p : process W) (html : str) (w1 : W) (src : bytes)
  (status : pisaContext) (dest : BytesIO) (w2 : W) :
  parsed markdown_markdown md (world p) html w1 ->
  styled html src ->
  pisa_CreatePDF w1 src BytesIO_new (s2u "utf-8") = (inr status, dest, w2) ->
  err status <> 0%Z ->
  markdown_to_pdf_bytes markdown_markdown pisa_CreatePDF md p
  = (Return None,
     {| world := w2;
        events := events p ++
          [CallMarkdown md extensions;
           CallCreatePDF src BytesIO_new (s2u "utf-8");
           Log ERROR
             (s2u "xhtml2pdf Error converting to PDF: "
              ++ str_of_Z (err status)) false] |}).
Proof.
  unfold parsed, styled. intros P S R E.
  rewrite markdown_to_pdf_bytes_unfold. unfold run_result.
  rewrite P. cbn [parse_result]. rewrite S. cbn [style_result].
  rewrite R. cbn [render_result].
  unfold int_truthy. apply Z.eqb_neq in E. rewrite E. cbn [negb].
  now rewrite <- !app_assoc.
Qed.

(** When the markup of the parser holds a surrogate code point, the
    encoder raises [UnicodeEncodeError]: the engine is not called and the
    call returns [None], after logging the error with the traceback. *)
Theorem lone_surrogate_fails_the_call
  (md : str) (p : process W) (html : str) (w : W) :
  parsed markdown_markdown md (world p) html w ->
  has_surrogate html = true ->
  exists e : exc,
    encode_utf8 (html_template html) = inl e /\
    exc_type e = s2u "UnicodeEncodeError" /\
    markdown_to_pdf_bytes markdown_markdown pisa_CreatePDF md p
    = (Return None,
       {| world := w;
          events := events p ++
            [CallMarkdown md extensions;
             Log ERROR
               (s2u "An unexpected error occurred during PDF conversion: "
                ++ exc_str e) true] |}).
Proof.
  unfold parsed. intros P S.
  destruct (encode_utf8 (html_template html)) as [e|src] eqn:E.
  - exists e. split; [reflexivity|].
    split; [exact (encode_utf8_fault_type _ _ E)|].
    rewrite markdown_to_pdf_bytes_unfold. unfold run_result.
    rewrite P. cbn [parse_result]. rewrite E. cbn [style_result].
    rewrite handled_Exception
      by (exact (encode_utf8_fault _ _ E)
          || exact (encode_utf8_fault_prints _ _ E)).
    now rewrite <- app_assoc.
  - assert (H : has_surrogate html = false)
      by (rewrite <- has_surrogate_template; apply encode_utf8_succeeds;
          exists src; exact E).
    congruence.
Qed.

(** The events of a call are calls of the libraries and log records. *)
Lemma call_shows_nothing (md : str) (p : process W) :
  exists (o : outcome (option bytes)) (p' : process W) (evs : list event),
    markdown_to_pdf_bytes markdown_markdown pisa_CreatePDF md p = (o, p') /\
    events p' = events p ++ evs /\
    messages evs = [] /\ downloads evs = [] /\
    parser_calls evs = [CallMarkdown md extensions].
Proof.
  by_stage md p;
    [by_handler e0 | by_handler e0 | by_handler e0
     | destruct (int_truthy (err status))];
    do 3 eexists; (split; [reflexivity|]); cbn [events];
    rewrite <- ?app_assoc; (split; [reflexivity|]);
    repeat split; reflexivity.
Qed.

Lemma call_returns (md : str) (p : process W) :
  faults_are_Exceptions markdown_markdown pisa_CreatePDF ->
  faults_can_be_printed markdown_markdown pisa_CreatePDF ->
  exists (r : option bytes) (p' : process W),
    markdown_to_pdf_bytes markdown_markdown pisa_CreatePDF md p = (Return r, p').
Proof.
  intros [Fparse Frender] [Sparse Srender]. by_stage md p.
  - rewrite handled_Exception
      by (exact (Fparse _ _ _ _ _ Eparse) || exact (Sparse _ _ _ _ _ Eparse)).
    eauto.
  - rewrite handled_Exception
      by (exact (encode_utf8_fault _ _ Estyle)
          || exact (encode_utf8_fault_prints _ _ Estyle)).
    eauto.
  - rewrite handled_Exception
      by (exact (Frender _ _ _ _ _ _ _ Erender)
          || exact (Srender _ _ _ _ _ _ _ Erender)).
    eauto.
  - destruct (int_truthy (err status)); eauto.
Qed.

End Call.

(** ** What the script does when the button is pressed *)

Lemma lstrip_empty (s : str) : lstrip s = [] -> whitespace_only s = true.
Proof.
  induction s as [|c s IH]; simpl; [reflexivity|].
  destruct (isspace c); [exact IH|discriminate].
Qed.

Lemma lstrip_head (s : str) (c : codepoint) (t : str) :
  lstrip s = c :: t -> isspace c = false.
Proof.
  induction s as [|d s IH]; simpl; [discriminate|].
  destruct (isspace d) eqn:E; [exact IH|]. intros H. now injection H as <- _.
Qed.

Lemma whitespace_only_rev (s : str) :
  whitespace_only (rev s) = whitespace_only s.
Proof.
  unfold whitespace_only. induction s as [|c s IH]; [reflexivity|].
  simpl. rewrite forallb_app, IH. simpl. rewrite andb_true_r. apply andb_comm.
Qed.

(** [strip] leaves nothing exactly of the texts made of white space. *)
Lemma strip_empty_iff (s : str) : strip s = [] <-> whitespace_only s = true.
Proof.
  split; [|apply strip_whitespace].
  unfold strip, rstrip. intros H.
  assert (E : lstrip (rev (lstrip s)) = []).
  { destruct (lstrip (rev (lstrip s))); [reflexivity|].
    apply (f_equal (@List.length _)) in H. rewrite length_rev in H.
    discriminate. }
  apply lstrip_empty in E. rewrite whitespace_only_rev in E.
  destruct (lstrip s) as [|c t] eqn:L; [now apply lstrip_empty|].
  apply lstrip_head in L. simpl in E. rewrite L in E. discriminate.
Qed.

Lemma guard_is_whitespace_only (s : str) :
  negb (str_truthy (strip s)) = whitespace_only s.
Proof.
  destruct (whitespace_only s) eqn:E.
  - apply strip_empty_iff in E. now rewrite E.
  - destruct (strip s) eqn:S; [|reflexivity].
    apply strip_empty_iff in S. congruence.
Qed.

Lemma format_file_name (ts : str) :
  format "converted_markdown_{timestamp}.pdf" (var "timestamp" ts)
  = s2u "converted_markdown_" ++ ts ++ s2u ".pdf".
Proof.
  unfold format, fstring.
  destruct literals_well_formed as (_ & _ & _ & ->).
  cbn [option_map fstring_render].
  change (var "timestamp" ts (s2u "timestamp")) with ts.
  now rewrite app_nil_r.
Qed.

Section Script.

Variable W : Type.
Variable markdown_markdown : W -> str -> list str -> (exc + str) * W.
Variable pisa_CreatePDF :
  W -> bytes -> BytesIO -> str -> (exc + pisaContext) * BytesIO * W.
Variable datetime_now_strftime : W -> str -> str.

Local Opaque html_template encode_utf8 markdown_to_pdf_bytes.

(** With the button pressed and some text typed, the script shows the
    spinner, converts, and shows what the result calls for. *)
Lemma conversion_logic_pressed (md : str) (p : process W) :
  whitespace_only md = false ->
  conversion_logic markdown_markdown pisa_CreatePDF datetime_now_strftime
    true md p
  = Display.shown datetime_now_strftime
      (markdown_to_pdf_bytes markdown_markdown pisa_CreatePDF md
         (in_spinner p)).
Proof.
  intros Hws. unfold conversion_logic. rewrite guard_is_whitespace_only, Hws.
  unfold bind at 1. unfold emit at 1. unfold bind at 1.
  change {| world := world p;
            events := events p ++
              [StSpinner
                 ([0x2699; 0xFE0F]%N ++
                  s2u " Converting Markdown to PDF (compact style)... Please wait.")] |}
    with (in_spinner p).
  destruct (markdown_to_pdf_bytes markdown_markdown pisa_CreatePDF md
              (in_spinner p)) as [[r|e] p1]; [|reflexivity].
  unfold Display.shown. destruct (result_truthy r).
  - unfold bind, emit, interact, ret. cbn [world events].
    rewrite format_file_name, <- app_assoc. reflexivity.
  - reflexivity.
Qed.

(** The script calls the parser exactly when the button is pressed and the
    text is not empty or white space; the parser then gets the text as it
    was typed, with its leading and trailing white space. *)
Theorem script_converts_iff_pressed_and_not_blank
  (convert_button : bool) (md : str) (p : process W) :
  exists (o : outcome unit) (p' : process W) (evs : list event),
    conversion_logic markdown_markdown pisa_CreatePDF datetime_now_strftime
      convert_button md p = (o, p') /\
    events p' = events p ++ evs /\
    parser_calls evs =
      if convert_button && negb (whitespace_only md)
      then [CallMarkdown md extensions]
      else [].
Proof.
  destruct convert_button; [destruct (whitespace_only md) eqn:Hws|].
  - unfold conversion_logic. rewrite guard_is_whitespace_only, Hws.
    do 3 eexists. split; [reflexivity|]. split; reflexivity.
  - rewrite (conversion_logic_pressed _ _ Hws).
    destruct (call_shows_nothing W markdown_markdown pisa_CreatePDF md
                (in_spinner p)) as (o & p1 & evs & R & Ev & _ & _ & P).
    rewrite R. unfold Display.shown.
    destruct o as [r|e]; [destruct (result_truthy r)|];
      do 3 eexists; (split; [reflexivity|]); cbn [events world];
      rewrite Ev; unfold in_spinner; cbn [events]; rewrite <- ?app_assoc;
      (split; [reflexivity|]); unfold parser_calls in *;
      cbn [app filter is_parser_call]; rewrite ?filter_app, P; reflexivity.
  - exists (Return tt), p, []. split; [reflexivity|].
    split; [now rewrite app_nil_r|reflexivity].
Qed.

(** When the call returns bytes, and some, the script shows the success
    message and offers exactly these bytes for download, as a PDF whose
    name carries the time at which the conversion has ended. *)
Theorem download_is_what_the_call_returned
  (md : str) (p : process W) (b : bytes) (p1 : process W) :
  whitespace_only md = false ->
  markdown_to_pdf_bytes markdown_markdown pisa_CreatePDF md (in_spinner p)
  = (Return (Some b), p1) ->
  b <> [] ->
  conversion_logic markdown_markdown pisa_CreatePDF datetime_now_strftime
    true md p
  = (Return tt,
     {| world := world p1;
        events := events p1 ++
          [StSuccess success_text;
           StDownloadButton download_label b
             (s2u "converted_markdown_"
              ++ datetime_now_strftime (world p1) (s2u "%Y%m%d_%H%M%S")
              ++ s2u ".pdf")
             (s2u "application/pdf")] |}).
Proof.
  intros Hws R Hb. rewrite (conversion_logic_pressed _ _ Hws), R.
  unfold Display.shown. destruct b; [contradiction|reflexivity].
Qed.

(** When the call returns [None], or no byte at all, the script shows the
    error message and offers nothing for download. *)
Theorem failure_is_shown
  (md : str) (p : process W) (r : option bytes) (p1 : process W) :
  whitespace_only md = false ->
  markdown_to_pdf_bytes markdown_markdown pisa_CreatePDF md (in_spinner p)
  = (Return r, p1) ->
  r = None \/ r = Some [] ->
  conversion_logic markdown_markdown pisa_CreatePDF datetime_now_strftime
    true md p
  = (Return tt,
     {| world := world p1; events := events p1 ++ [StError error_text] |}).
Proof.
  intros Hws R Hr. rewrite (conversion_logic_pressed _ _ Hws), R.
  unfold Display.shown. now destruct Hr as [-> | ->].
Qed.

(** An exception that leaves the call leaves the script as well: after
    the spinner the script shows no message. *)
Theorem exception_passes_the_script
  (md : str) (p : process W) (e : exc) (p1 : process W) :
  whitespace_only md = false ->
  markdown_to_pdf_bytes markdown_markdown pisa_CreatePDF md (in_spinner p)
  = (Raise e, p1) ->
  conversion_logic markdown_markdown pisa_CreatePDF datetime_now_strftime
    true md p
  = (Raise e, p1).
Proof.
  intros Hws R. now rewrite (conversion_logic_pressed _ _ Hws), R.
Qed.

(** With libraries whose faults are instances of [Exception] that can be
    written to the log, a press of the button ends with exactly one
    message: the warning, the error, or the success; a download is offered
    with the success only, and its data is not empty. *)
Theorem one_message_per_press (md : str) (p : process W) :
  faults_are_Exceptions markdown_markdown pisa_CreatePDF ->
  faults_can_be_printed markdown_markdown pisa_CreatePDF ->
  exists (p' : process W) (evs : list event),
    conversion_logic markdown_markdown pisa_CreatePDF datetime_now_strftime
      true md p = (Return tt, p') /\
    events p' = events p ++ evs /\
    ((messages evs = [StWarning warning_text] /\ downloads evs = []) \/
     (messages evs = [StError error_text] /\ downloads evs = []) \/
     (exists (b : bytes) (ts : str),
         b <> [] /\
         messages evs = [StSuccess success_text] /\
         downloads evs =
           [StDownloadButton download_label b
              (s2u "converted_markdown_" ++ ts ++ s2u ".pdf")
              (s2u "application/pdf")])).
Proof.
  intros F G. destruct (whitespace_only md) eqn:Hws.
  - unfold conversion_logic. rewrite guard_is_whitespace_only, Hws.
    do 2 eexists. split; [reflexivity|]. split; [reflexivity|].
    left. split; reflexivity.
  - rewrite (conversion_logic_pressed _ _ Hws).
    destruct (call_shows_nothing W markdown_markdown pisa_CreatePDF md
                (in_spinner p)) as (o & p1 & evs & R & Ev & M & D & _).
    destruct (call_returns W markdown_markdown pisa_CreatePDF md
                (in_spinner p) F G) as (r & p1' & R').
    rewrite R in R'. injection R' as -> <-. rewrite R.
    unfold Display.shown.
    destruct r as [[|x b]|]; cbn [result_truthy bytes_truthy];
      do 2 eexists; (split; [reflexivity|]); cbn [events world];
      rewrite Ev; unfold in_spinner; cbn [events]; rewrite <- ?app_assoc;
      (split; [reflexivity|]); unfold messages, downloads in *;
      cbn [app filter is_message is_download];
      rewrite ?filter_app, M, D; cbn [app filter is_message is_download].
    + right. left. split; reflexivity.
    + right. right. do 2 eexists. split; [|split; reflexivity]. discriminate.
    + right. left. split; reflexivity.
Qed.

End Script.

End Behaviour.

(** ** Evaluating a call on given libraries *)

Module Evaluation.
Import Py Template Effects App Shell Stages Observe.
Import EncodeFacts ShellFacts PipelineFacts SurrogateFacts.

(** The bytes of the styled document of a markup without surrogates. *)
Lemma encode_template (html : str) :
  has_surrogate html = false ->
  encode_utf8 (html_template html)
  = inr (flat_map utf8_char (html_template html)).
Proof.
  intros H. destruct (encode_utf8 (html_template html)) as [e|b] eqn:E.
  - assert (X : exists b, encode_utf8 (html_template html) = inr b).
    { apply encode_utf8_succeeds. now rewrite has_surrogate_template. }
    destruct X as [b X]. congruence.
  - now rewrite (encode_utf8_inr _ _ E).
Qed.

(** A call on libraries that are given: the result of the parser is
    computed, then the styled document is written with the constant parts
    of the template. *)
Ltac eval_call :=
  rewrite markdown_to_pdf_bytes_unfold; unfold run_result;
  match goal with
  | |- context [parse_result ?pc ?evs ?r] =>
      let v := eval vm_compute in r in
      replace r with v by (vm_compute; reflexivity)
  end;
  cbn [parse_result];
  try rewrite encode_template by (vm_compute; reflexivity);
  rewrite ?html_template_shape.

End Evaluation.

(** ** Where the two statements of the specification fail *)

Module Counterexamples.
Import Py Template Effects App Stages Samples Evaluation.

#[local] Opaque html_template encode_utf8 flat_map.

(** An interrupt of the parser is an exception of the parsing stage, and
    it reaches the caller. *)
Lemma stage_exception_reaches_caller :
  stage_raises Interrupted.markdown_markdown Instance.pisa_CreatePDF
    [0x68; 0x03]%N (world Instance.start) Interrupted.KeyboardInterrupt /\
  markdown_to_pdf_bytes Interrupted.markdown_markdown Instance.pisa_CreatePDF
    [0x68; 0x03]%N Instance.start
  = (Raise Interrupted.KeyboardInterrupt,
     {| world := 0; events := [CallMarkdown [0x68; 0x03]%N extensions] |}).
Proof.
  split.
  - eapply parsing_raises. vm_compute. reflexivity.
  - vm_compute. reflexivity.
Qed.


End Counterexamples.

(** ** The properties on the small instance of the libraries *)

Module OnInstance.
Import Py Template Effects App Css Shell Stages Properties.

Lemma whitespace_input_short_circuits_witness :
  whitespace_only [0x20; 0x0A; 0xA0; 0x09]%N = true /\
  exists p' : process nat,
    conversion_logic Instance.markdown_markdown Instance.pisa_CreatePDF
      Instance.datetime_now_strftime true [0x20; 0x0A; 0xA0; 0x09]%N
      Instance.start = (Return tt, p') /\
    world p' = world Instance.start /\
    engine_calls (events p') = engine_calls (events Instance.start) /\
    parser_calls (events p') = parser_calls (events Instance.start) /\
    (true = true ->
     events p' =
       events Instance.start ++
       [StWarning
          ([0x26A0; 0xFE0F]%N
           ++ s2u " Please enter some Markdown text in the input area first.")]).
Proof.
  split; [reflexivity|].
  exact (whitespace_input_short_circuits nat
           Instance.markdown_markdown Instance.pisa_CreatePDF
           Instance.datetime_now_strftime true [0x20; 0x0A; 0xA0; 0x09]%N
           Instance.start eq_refl).
Defined.

End OnInstance.

(** ** Runs of the program on the small instance *)

Module Runs.
Import Py Template Effects App Css Shell Stages Observe Behaviour Evaluation.

#[local] Opaque html_template encode_utf8 flat_map.

(** Called directly, the conversion function parses and renders an input
    of white space like any other: the guard is in the script. *)
Example direct_call_on_whitespace :
  List.length
    (engine_calls
       (events
          (snd (markdown_to_pdf_bytes
                  Instance.markdown_markdown Instance.pisa_CreatePDF
                  (s2u "   ") Instance.start))))
  = 1.
Proof. eval_call. vm_compute. reflexivity. Qed.

(** A run that succeeds returns the whole buffer: the header the engine
    writes and the bytes of the styled document. *)
Example successful_run :
  exists src,
    encode_utf8
      (html_template
         (s2u "<p>" ++ s2u "A paragraph that makes the document long enough"
          ++ s2u "</p>"))
    = inr src /\
    fst (markdown_to_pdf_bytes
           Instance.markdown_markdown Instance.pisa_CreatePDF
           (s2u "A paragraph that makes the document long enough")
           Instance.start)
    = Return (Some (Instance.header ++ src)).
Proof.
  eexists. split.
  - apply encode_template. vm_compute. reflexivity.
  - eval_call. vm_compute. reflexivity.
Qed.

(** A short document makes this engine count an error: the call returns
    [None] although the engine has written to the buffer. *)
Example engine_error_run :
  fst (markdown_to_pdf_bytes
         Instance.markdown_markdown Instance.pisa_CreatePDF
         (s2u "hi") Instance.start)
  = Return None /\
  (exists status dest w,
      Instance.pisa_CreatePDF 0 [] BytesIO_new (s2u "utf-8")
      = (inr status, dest, w) /\ getvalue dest <> []).
Proof.
  split; [eval_call; vm_compute; reflexivity|].
  do 3 eexists. split; [reflexivity|]. discriminate.
Qed.

(** An exception of the parser whose [__str__] raises: the handler is
    entered, the log message cannot be built, and what [__str__] raises
    leaves the call; nothing is logged. *)
Example unprintable_fault_run :
  markdown_to_pdf_bytes Unprintable.markdown_markdown Instance.pisa_CreatePDF
    [0x68; 0x07]%N Instance.start
  = (Raise Unprintable.TypeError,
     {| world := 0; events := [CallMarkdown [0x68; 0x07]%N extensions] |}).
Proof. vm_compute. reflexivity. Qed.

(** The script on a successful conversion: spinner, the two library calls,
    the log line, the success message and the download button, whose file
    name carries the time stamp. *)
Example script_run :
  exists src data,
    events
      (snd (conversion_logic
              Instance.markdown_markdown Instance.pisa_CreatePDF
              Instance.datetime_now_strftime true
              (s2u "A paragraph that makes the document long enough")
              Instance.start))
    = [StSpinner
         ([0x2699; 0xFE0F]%N
          ++ s2u " Converting Markdown to PDF (compact style)... Please wait.");
       CallMarkdown (s2u "A paragraph that makes the document long enough")
         [s2u "extra"; s2u "smarty"; s2u "fenced_code"];
       CallCreatePDF src BytesIO_new (s2u "utf-8");
       Log INFO (s2u "PDF conversion successful (compact styling).") false;
       StSuccess ([0x2705]%N ++ s2u " Conversion Successful!");
       StDownloadButton
         ([0x2B07; 0xFE0F]%N ++ s2u " Download PDF")
         data
         (s2u "converted_markdown_1.pdf")
         (s2u "application/pdf")].
Proof.
  do 2 eexists.
  rewrite conversion_logic_pressed by (vm_compute; reflexivity).
  eval_call. vm_compute. reflexivity.
Qed.

End Runs.

(** ** The behaviour on the instances *)

Module BehaviourOnInstance.
Import Py Template Effects App Css Shell Stages Observe Utf8 Samples.
Import ShellFacts SurrogateFacts Utf8Facts Behaviour Evaluation.

#[local] Opaque html_template encode_utf8 flat_map.

Lemma faults_on_instance :
  faults_are_Exceptions Instance.markdown_markdown Instance.pisa_CreatePDF.
Proof.
  split.
  - intros w text exts e w1. unfold Instance.markdown_markdown.
    destruct (existsb (N.eqb 0) text); intros H; inversion H. reflexivity.
  - intros w src dest enc e dest' w1. unfold Instance.pisa_CreatePDF.
    destruct (Nat.leb (List.length src) 4600); intros H; inversion H.
Defined.

Lemma prints_on_instance :
  faults_can_be_printed Instance.markdown_markdown Instance.pisa_CreatePDF.
Proof.
  split.
  - intros w text exts e w1. unfold Instance.markdown_markdown.
    destruct (existsb (N.eqb 0) text); intros H; inversion H. reflexivity.
  - intros w src dest enc e dest' w1. unfold Instance.pisa_CreatePDF.
    destruct (Nat.leb (List.length src) 4600); intros H; inversion H.
Defined.

Lemma engine_errors_are_reported_witness :
  parsed Instance.markdown_markdown (s2u "hi") (world Instance.start)
    (s2u "<p>hi</p>") 0 /\
  styled (s2u "<p>hi</p>")
    (flat_map utf8_char (html_template (s2u "<p>hi</p>"))) /\
  Instance.pisa_CreatePDF 0
    (flat_map utf8_char (html_template (s2u "<p>hi</p>")))
    BytesIO_new (s2u "utf-8")
  = (inr {| err := 1 |}, write BytesIO_new Instance.header, 1) /\
  err {| err := 1 |} <> 0%Z /\
  markdown_to_pdf_bytes Instance.markdown_markdown Instance.pisa_CreatePDF
    (s2u "hi") Instance.start
  = (Return None,
     {| world := 1;
        events := events Instance.start ++
          [CallMarkdown (s2u "hi") extensions;
           CallCreatePDF
             (flat_map utf8_char (html_template (s2u "<p>hi</p>")))
             BytesIO_new (s2u "utf-8");
           Log ERROR
             (s2u "xhtml2pdf Error converting to PDF: "
              ++ str_of_Z (err {| err := 1 |})) false] |}).
Proof.
  assert (P : parsed Instance.markdown_markdown (s2u "hi")
                (world Instance.start) (s2u "<p>hi</p>") 0)
    by (vm_compute; reflexivity).
  assert (S : styled (s2u "<p>hi</p>")
                (flat_map utf8_char (html_template (s2u "<p>hi</p>"))))
    by (apply encode_template; vm_compute; reflexivity).
  assert (R : Instance.pisa_CreatePDF 0
                (flat_map utf8_char (html_template (s2u "<p>hi</p>")))
                BytesIO_new (s2u "utf-8")
              = (inr {| err := 1 |}, write BytesIO_new Instance.header, 1))
    by (rewrite html_template_shape; vm_compute; reflexivity).
  assert (E : err {| err := 1 |} <> 0%Z) by discriminate.
  split; [exact P|]. split; [exact S|]. split; [exact R|]. split; [exact E|].
  exact (engine_errors_are_reported nat
           Instance.markdown_markdown Instance.pisa_CreatePDF
           (s2u "hi") Instance.start (s2u "<p>hi</p>") 0
           (flat_map utf8_char (html_template (s2u "<p>hi</p>")))
           {| err := 1 |} (write BytesIO_new Instance.header) 1 P S R E).
Defined.

Lemma lone_surrogate_fails_the_call_witness :
  parsed Instance.markdown_markdown [0xD800]%N (world Instance.start)
    (s2u "<p>" ++ [0xD800]%N ++ s2u "</p>") 0 /\
  has_surrogate (s2u "<p>" ++ [0xD800]%N ++ s2u "</p>") = true /\
  exists e : exc,
    encode_utf8 (html_template (s2u "<p>" ++ [0xD800]%N ++ s2u "</p>"))
    = inl e /\
    exc_type e = s2u "UnicodeEncodeError" /\
    markdown_to_pdf_bytes Instance.markdown_markdown Instance.pisa_CreatePDF
      [0xD800]%N Instance.start
    = (Return None,
       {| world := 0;
          events := events Instance.start ++
            [CallMarkdown [0xD800]%N extensions;
             Log ERROR
               (s2u "An unexpected error occurred during PDF conversion: "
                ++ exc_str e) true] |}).
Proof.
  assert (P : parsed Instance.markdown_markdown [0xD800]%N
                (world Instance.start)
                (s2u "<p>" ++ [0xD800]%N ++ s2u "</p>") 0)
    by (vm_compute; reflexivity).
  assert (S : has_surrogate (s2u "<p>" ++ [0xD800]%N ++ s2u "</p>") = true)
    by (vm_compute; reflexivity).
  split; [exact P|]. split; [exact S|].
  exact (lone_surrogate_fails_the_call nat
           Instance.markdown_markdown Instance.pisa_CreatePDF
           [0xD800]%N Instance.start
           (s2u "<p>" ++ [0xD800]%N ++ s2u "</p>") 0 P S).
Defined.

Lemma download_is_what_the_call_returned_witness :
  whitespace_only long_text = false /\
  markdown_to_pdf_bytes Instance.markdown_markdown Instance.pisa_CreatePDF
    long_text (in_spinner Instance.start)
  = (Return (Some converted_bytes), snd converted) /\
  converted_bytes <> [] /\
  conversion_logic Instance.markdown_markdown Instance.pisa_CreatePDF
    Instance.datetime_now_strftime true long_text Instance.start
  = (Return tt,
     {| world := world (snd converted);
        events := events (snd converted) ++
          [StSuccess success_text;
           StDownloadButton download_label converted_bytes
             (s2u "converted_markdown_"
              ++ Instance.datetime_now_strftime (world (snd converted))
                   (s2u "%Y%m%d_%H%M%S")
              ++ s2u ".pdf")
             (s2u "application/pdf")] |}).
Proof.
  assert (H : whitespace_only long_text = false) by (vm_compute; reflexivity).
  assert (R : markdown_to_pdf_bytes Instance.markdown_markdown Instance.pisa_CreatePDF
    long_text (in_spinner Instance.start)
              = (Return (Some converted_bytes), snd converted))
    by (unfold converted, converted_bytes; eval_call; vm_compute;
        reflexivity).
  assert (B : converted_bytes <> [])
    by (unfold converted_bytes, Instance.header; cbn [app]; discriminate).
  split; [exact H|]. split; [exact R|]. split; [exact B|].
  exact (download_is_what_the_call_returned nat
           Instance.markdown_markdown Instance.pisa_CreatePDF
           Instance.datetime_now_strftime long_text Instance.start
           converted_bytes (snd converted) H R B).
Defined.

(** The engine that writes nothing reports no error: the call returns an
    empty byte string, and the script shows the error. *)
Lemma failure_is_shown_witness :
  whitespace_only long_text = false /\
  markdown_to_pdf_bytes Instance.markdown_markdown Silent.pisa_CreatePDF
    long_text (in_spinner Instance.start)
  = (Return (Some []), snd converted_to_nothing) /\
  (@Some bytes [] = None \/ @Some bytes [] = Some []) /\
  conversion_logic Instance.markdown_markdown Silent.pisa_CreatePDF
    Instance.datetime_now_strftime true long_text Instance.start
  = (Return tt,
     {| world := world (snd converted_to_nothing);
        events := events (snd converted_to_nothing)
                  ++ [StError error_text] |}).
Proof.
  assert (H : whitespace_only long_text = false) by (vm_compute; reflexivity).
  assert (R : markdown_to_pdf_bytes Instance.markdown_markdown Silent.pisa_CreatePDF
    long_text (in_spinner Instance.start)
              = (Return (Some []), snd converted_to_nothing))
    by (unfold converted_to_nothing; eval_call; vm_compute; reflexivity).
  assert (E : @Some bytes [] = None \/ @Some bytes [] = Some [])
    by (right; reflexivity).
  split; [exact H|]. split; [exact R|]. split; [exact E|].
  exact (failure_is_shown nat
           Instance.markdown_markdown Silent.pisa_CreatePDF
           Instance.datetime_now_strftime long_text Instance.start
           (Some []) (snd converted_to_nothing) H R E).
Defined.

Lemma exception_passes_the_script_witness :
  whitespace_only [0x68; 0x03]%N = false /\
  markdown_to_pdf_bytes Interrupted.markdown_markdown Instance.pisa_CreatePDF
    [0x68; 0x03]%N (in_spinner Instance.start)
  = (Raise Interrupted.KeyboardInterrupt, snd interrupted) /\
  conversion_logic Interrupted.markdown_markdown Instance.pisa_CreatePDF
    Instance.datetime_now_strftime true [0x68; 0x03]%N Instance.start
  = (Raise Interrupted.KeyboardInterrupt, snd interrupted).
Proof.
  assert (H : whitespace_only [0x68; 0x03]%N = false)
    by (vm_compute; reflexivity).
  assert (R : markdown_to_pdf_bytes Interrupted.markdown_markdown Instance.pisa_CreatePDF
    [0x68; 0x03]%N (in_spinner Instance.start)
              = (Raise Interrupted.KeyboardInterrupt, snd interrupted))
    by (vm_compute; reflexivity).
  split; [exact H|]. split; [exact R|].
  exact (exception_passes_the_script nat
           Interrupted.markdown_markdown Instance.pisa_CreatePDF
           Instance.datetime_now_strftime [0x68; 0x03]%N Instance.start
           Interrupted.KeyboardInterrupt (snd interrupted) H R).
Defined.

Lemma one_message_per_press_witness :
  faults_are_Exceptions Instance.markdown_markdown Instance.pisa_CreatePDF /\
  faults_can_be_printed Instance.markdown_markdown Instance.pisa_CreatePDF /\
  exists (p' : process nat) (evs : list event),
    conversion_logic Instance.markdown_markdown Instance.pisa_CreatePDF
      Instance.datetime_now_strftime true long_text Instance.start
    = (Return tt, p') /\
    events p' = events Instance.start ++ evs /\
    ((messages evs = [StWarning warning_text] /\ downloads evs = []) \/
     (messages evs = [StError error_text] /\ downloads evs = []) \/
     (exists (b : bytes) (ts : str),
         b <> [] /\
         messages evs = [StSuccess success_text] /\
         downloads evs =
           [StDownloadButton download_label b
              (s2u "converted_markdown_" ++ ts ++ s2u ".pdf")
              (s2u "application/pdf")])).
Proof.
  split; [exact faults_on_instance|]. split; [exact prints_on_instance|].
  exact (one_message_per_press nat
           Instance.markdown_markdown Instance.pisa_CreatePDF
           Instance.datetime_now_strftime long_text Instance.start
           faults_on_instance prints_on_instance).
Defined.

Lemma engine_input_decodes_to_styled_document_witness :
  forallb in_range accented = true /\
  styled accented (flat_map utf8_char (html_template accented)) /\
  decode_utf8 (flat_map utf8_char (html_template accented))
  = Some (html_template accented).
Proof.
  assert (R : forallb in_range accented = true) by (vm_compute; reflexivity).
  assert (S : styled accented (flat_map utf8_char (html_template accented)))
    by (apply encode_template; vm_compute; reflexivity).
  split; [exact R|]. split; [exact S|].
  exact (engine_input_decodes_to_styled_document accented
           (flat_map utf8_char (html_template accented)) R S).
Defined.

End BehaviourOnInstance.
